(** * Calculator with history: the evaluator, the bounded log, its
      statistics and its JSON persistence

    A shallow embedding of [calculator.py], [history.py], [persistence.py]
    and the facade of [main.py].  Python objects become records that are
    passed in and handed back; a method that may raise returns an
    [outcome] next to the state it leaves behind, so that "the call failed
    and nothing changed" is a statement about the returned state. *)

From Stdlib Require Import ZArith QArith Bool Ascii Lia.
From Stdlib Require String.
From Corelib Require Import SpecFloat.
From stdpp Require Import gmap strings list.

Local Open Scope Z_scope.

(** ** Exceptions and outcomes *)

(** The exception classes the program raises or lets through, with the
    message they carry. *)
Inductive exn : Type :=
  | ZeroDivisionError (msg : string)
  | ValueError (msg : string)
  | OverflowError (msg : string).

Inductive outcome (A : Type) : Type :=
  | Returns (a : A)
  | Raises (e : exn).
Arguments Returns {A} a.
Arguments Raises {A} e.

#[export] Instance outcome_ret : MRet outcome := λ A a, Returns a.
#[export] Instance outcome_bind : MBind outcome := λ A B k o,
  match o with
  | Returns a => k a
  | Raises e => Raises e
  end.

Definition returned {A : Type} (o : outcome A) : bool :=
  match o with Returns _ => true | Raises _ => false end.

(** ** Numbers: Python's [int] and [float]

    [Number = Union[int, float]].  An [int] is unbounded; a [float] is an
    IEEE-754 binary64 value, here a [spec_float] at precision 53 and
    exponent bound 1024 (one NaN, signed zeros and infinities). *)

Module Float64.
Definition prec : Z := 53.
Definition emax : Z := 1024.

Definition add := SFadd prec emax.
Definition sub := SFsub prec emax.
Definition mul := SFmul prec emax.
Definition div := SFdiv prec emax.
Definition sqrt := SFsqrt prec emax.

(** The float nearest to [m * 2^e], ties to even. *)
Definition of_scaled (m e : Z) : spec_float :=
  binary_normalize prec emax m e false.

Definition is_nan (f : spec_float) : bool :=
  match f with S754_nan => true | _ => false end.
Definition is_inf (f : spec_float) : bool :=
  match f with S754_infinity _ => true | _ => false end.
Definition is_zero (f : spec_float) : bool :=
  match f with S754_zero _ => true | _ => false end.
End Float64.

Inductive Number : Type :=
  | PyInt (z : Z)
  | PyFloat (f : spec_float).

(** [isinstance(x, int)] *)
Definition isinstance_int (x : Number) : bool :=
  match x with PyInt _ => true | PyFloat _ => false end.

(** [float(z)]: the nearest double, and [OverflowError] when [z] is beyond
    the largest one. *)
Definition float_of_int (z : Z) : outcome spec_float :=
  match Float64.of_scaled z 0 with
  | S754_infinity _ => Raises (OverflowError "int too large to convert to float")
  | f => Returns f
  end.

Definition to_float (x : Number) : outcome spec_float :=
  match x with
  | PyInt z => float_of_int z
  | PyFloat f => Returns f
  end.

(** *** Exact comparison

    Python compares an [int] with a [float], and two floats, by their
    mathematical values; NaN is unordered with everything. *)

Inductive extended : Type :=
  | NegInfinity
  | Finite (q : Q)
  | PosInfinity.

Definition float_value (s : bool) (m : positive) (e : Z) : Q :=
  let n := if s then Zneg m else Zpos m in
  match e with
  | Z0 => n # 1
  | Zpos k => (n * Zpos (2 ^ k)) # 1
  | Zneg k => n # (2 ^ k)
  end.

Definition number_value (x : Number) : option extended :=
  match x with
  | PyInt z => Some (Finite (z # 1))
  | PyFloat (S754_zero _) => Some (Finite 0)
  | PyFloat (S754_finite s m e) => Some (Finite (float_value s m e))
  | PyFloat (S754_infinity s) => Some (if s then NegInfinity else PosInfinity)
  | PyFloat S754_nan => None
  end.

Definition extended_compare (x y : extended) : comparison :=
  match x, y with
  | NegInfinity, NegInfinity => Eq
  | NegInfinity, _ => Lt
  | _, NegInfinity => Gt
  | PosInfinity, PosInfinity => Eq
  | PosInfinity, _ => Gt
  | _, PosInfinity => Lt
  | Finite p, Finite q => Qcompare p q
  end.

Definition py_compare (x y : Number) : option comparison :=
  match number_value x, number_value y with
  | Some u, Some v => Some (extended_compare u v)
  | _, _ => None
  end.

(** [x < y], [x > y], [x == y] *)
Definition py_lt (x y : Number) : bool :=
  match py_compare x y with Some Lt => true | _ => false end.
Definition py_gt (x y : Number) : bool :=
  match py_compare x y with Some Gt => true | _ => false end.
Definition py_eq (x y : Number) : bool :=
  match py_compare x y with Some Eq => true | _ => false end.
Definition py_le (x y : Number) : bool :=
  match py_compare x y with Some Lt | Some Eq => true | _ => false end.

(** *** Arithmetic

    Two ints combine exactly.  As soon as one operand is a float the other
    is converted with [float(...)] and the IEEE operation is applied. *)

Definition float_binop (op : spec_float → spec_float → spec_float)
    (x y : Number) : outcome Number :=
  fx ← to_float x ; fy ← to_float y ; Returns (PyFloat (op fx fy)).

Definition py_add (x y : Number) : outcome Number :=
  match x, y with
  | PyInt a, PyInt b => Returns (PyInt (a + b))
  | _, _ => float_binop Float64.add x y
  end.

Definition py_sub (x y : Number) : outcome Number :=
  match x, y with
  | PyInt a, PyInt b => Returns (PyInt (a - b))
  | _, _ => float_binop Float64.sub x y
  end.

Definition py_mul (x y : Number) : outcome Number :=
  match x, y with
  | PyInt a, PyInt b => Returns (PyInt (a * b))
  | _, _ => float_binop Float64.mul x y
  end.

(** [a / b] on two ints: the correctly rounded quotient, [OverflowError]
    when it is beyond the largest double. *)
Definition int_true_divide (a b : Z) : outcome spec_float :=
  let s := xorb (a <? 0) (b <? 0) in
  match a with
  | Z0 => Returns (S754_zero s)
  | _ =>
    let '(q, e, l) :=
      SFdiv_core_binary Float64.prec Float64.emax (Z.abs a) 0 (Z.abs b) 0 in
    match binary_round_aux Float64.prec Float64.emax s q e l with
    | S754_infinity _ =>
        Raises (OverflowError "integer division result too large for a float")
    | f => Returns f
    end
  end.

(** [x / y]: true division. *)
Definition py_truediv (x y : Number) : outcome Number :=
  match x, y with
  | PyInt a, PyInt b =>
      if b =? 0 then Raises (ZeroDivisionError "division by zero")
      else f ← int_true_divide a b ; Returns (PyFloat f)
  | _, _ =>
      fx ← to_float x ; fy ← to_float y ;
      if Float64.is_zero fy then Raises (ZeroDivisionError "float division by zero")
      else Returns (PyFloat (Float64.div fx fy))
  end.

(** [math.sqrt(x)] *)
Definition math_sqrt (x : Number) : outcome Number :=
  f ← to_float x ;
  match f with
  | S754_finite true _ _ | S754_infinity true => Raises (ValueError "math domain error")
  | _ => Returns (PyFloat (Float64.sqrt f))
  end.

(** [math.isnan(x)] and [math.isinf(x)] take a float: an int is converted
    first, which fails on one that is too large. *)
Definition math_isnan (x : Number) : outcome bool :=
  f ← to_float x ; Returns (Float64.is_nan f).
Definition math_isinf (x : Number) : outcome bool :=
  f ← to_float x ; Returns (Float64.is_inf f).

(** [x ** y]

    Two ints with a non-negative exponent give the exact int.  Every other
    case is computed on doubles by the interpreter's [float.__pow__], which
    goes through the platform's [pow]; it is a parameter of the
    development.  It returns a double or raises ([OverflowError] when the
    result is out of range, [ZeroDivisionError] for zero to a negative
    power).  [Calculator.power] only consults it on a base that is not
    negative or on an exponent that came from an int, where the result is
    real. *)
Class FloatPow : Type :=
  float_pow : spec_float → spec_float → outcome spec_float.

Definition py_pow `{FloatPow} (x y : Number) : outcome Number :=
  match x, y with
  | PyInt a, PyInt b =>
      if 0 <=? b then Returns (PyInt (a ^ b))
      else fa ← float_of_int a ; fb ← float_of_int b ;
           f ← float_pow fa fb ; Returns (PyFloat f)
  | _, _ =>
      fx ← to_float x ; fy ← to_float y ;
      f ← float_pow fx fy ; Returns (PyFloat f)
  end.

(** ** Methods

    A method of an object with state [S] takes the state, and hands back
    what it returned or raised together with the state it left. *)

Definition method (S A : Type) : Type := S → outcome A * S.

#[export] Instance method_ret {S} : MRet (method S) :=
  λ A a s, (Returns a, s).
#[export] Instance method_bind {S} : MBind (method S) :=
  λ A B k m s,
    match m s with
    | (Returns a, s') => k a s'
    | (Raises e, s') => (Raises e, s')
    end.

(** [raise e] *)
Definition raise {S A} (e : exn) : method S A := λ s, (Raises e, s).

(** Evaluating an expression that may raise and does not touch the state. *)
Definition eval {S A} (o : outcome A) : method S A := λ s, (o, s).

(** Reading and assigning attributes of [self]. *)
Definition get {S} : method S S := λ s, (Returns s, s).
Definition gets {S A} (f : S → A) : method S A := λ s, (Returns (f s), s).
Definition put {S} (s' : S) : method S () := λ _, (Returns (), s').

(** [try: m except OverflowError: handler] *)
Definition except_OverflowError {S A} (m handler : method S A) : method S A :=
  λ s,
    match m s with
    | (Raises (OverflowError _), s') => handler s'
    | r => r
    end.

(** Running a method of an attribute inside a method of its owner. *)
Definition within {S T A} (proj : S → T) (upd : T → S → S)
    (m : method T A) : method S A :=
  λ s, let '(o, t') := m (proj s) in (o, upd t' s).

(** ** The evaluator ([calculator.py]) *)

Module Calculator.

Record t : Type := { last_result : Number }.

(** [__init__] *)
Definition init : t := {| last_result := PyInt 0 |}.

Definition set_last_result (r : Number) : method t () :=
  put {| last_result := r |}.

Definition add (a b : Number) : method t Number :=
  result ← eval (py_add a b) ;
  set_last_result result ;;
  mret result.

Definition subtract (a b : Number) : method t Number :=
  result ← eval (py_sub a b) ;
  set_last_result result ;;
  mret result.

Definition multiply (a b : Number) : method t Number :=
  result ← eval (py_mul a b) ;
  set_last_result result ;;
  mret result.

Definition divide (a b : Number) : method t Number :=
  if py_eq b (PyInt 0) then
    raise (ZeroDivisionError "Cannot divide by zero")
  else
    result ← eval (py_truediv a b) ;
    set_last_result result ;;
    mret result.

Definition power `{FloatPow} (base exponent : Number) : method t Number :=
  except_OverflowError
    (if py_lt base (PyInt 0) && negb (isinstance_int exponent) then
       raise (ValueError "Cannot raise negative number to non-integer power")
     else
       result ← eval (py_pow base exponent) ;
       nan ← eval (math_isnan result) ;
       invalid ← (if nan : bool then mret true else eval (math_isinf result)) ;
       if invalid : bool then
         raise (ValueError "Operation resulted in invalid number")
       else
         set_last_result result ;;
         mret result)
    (raise (ValueError "Operation resulted in overflow")).

Definition square_root (number : Number) : method t Number :=
  if py_lt number (PyInt 0) then
    raise (ValueError "Cannot calculate square root of negative number")
  else
    result ← eval (math_sqrt number) ;
    set_last_result result ;;
    mret result.

Definition get_last_result : method t Number :=
  gets last_result.

Definition clear : method t () :=
  set_last_result (PyInt 0).

End Calculator.

(** ** Instants ([datetime.datetime], naive) *)

Module Datetime.

Record t : Type := {
  year : Z; month : Z; day : Z;
  hour : Z; minute : Z; second : Z; microsecond : Z
}.

Definition is_leap (y : Z) : bool :=
  (y mod 4 =? 0) && (negb (y mod 100 =? 0) || (y mod 400 =? 0)).

Definition days_in_month (y m : Z) : Z :=
  if m =? 2 then (if is_leap y then 29 else 28)
  else if (m =? 4) || (m =? 6) || (m =? 9) || (m =? 11) then 30
  else 31.

Definition between (lo x hi : Z) : bool := (lo <=? x) && (x <=? hi).

(** The ranges the constructor enforces. *)
Definition valid (d : t) : bool :=
  between 1 (year d) 9999 && between 1 (month d) 12
  && between 1 (day d) (days_in_month (year d) (month d))
  && between 0 (hour d) 23 && between 0 (minute d) 59
  && between 0 (second d) 59 && between 0 (microsecond d) 999999.

Definition digit_char (d : Z) : ascii := ascii_of_nat (48 + Z.to_nat d).

Definition digit_value (c : ascii) : option Z :=
  let n := Z.of_nat (nat_of_ascii c) in
  if between 48 n 57 then Some (n - 48) else None.

(** [n] in [width] decimal digits, padded with zeros on the left. *)
Fixpoint decimal (width : nat) (n : Z) : list ascii :=
  match width with
  | O => []
  | S w => decimal w (n / 10) ++ [digit_char (n mod 10)]
  end.

Fixpoint parse_decimal (acc : Z) (l : list ascii) : option Z :=
  match l with
  | [] => Some acc
  | c :: r => d ← digit_value c ; parse_decimal (10 * acc + d) r
  end.

(** A field of exactly [width] digits at the front of [l]. *)
Definition field (width : nat) (l : list ascii) : option (Z * list ascii) :=
  if decide (width ≤ length l)%nat then
    n ← parse_decimal 0 (take width l) ; Some (n, drop width l)
  else None.

Definition expect (c : ascii) (l : list ascii) : option (list ascii) :=
  match l with
  | c' :: r => if decide (c = c') then Some r else None
  | [] => None
  end.

(** [isoformat()]: [YYYY-MM-DDTHH:MM:SS], followed by [.ffffff] when the
    microsecond is not zero. *)
Definition isoformat_chars (d : t) : list ascii :=
  decimal 4 (year d) ++ ["-"%char] ++ decimal 2 (month d) ++ ["-"%char]
  ++ decimal 2 (day d) ++ ["T"%char]
  ++ decimal 2 (hour d) ++ [":"%char] ++ decimal 2 (minute d) ++ [":"%char]
  ++ decimal 2 (second d)
  ++ (if microsecond d =? 0 then [] else "."%char :: decimal 6 (microsecond d)).

Definition isoformat (d : t) : string :=
  String.string_of_list_ascii (isoformat_chars d).

Definition fraction (l : list ascii) : option Z :=
  match l with
  | [] => Some 0
  | c :: r =>
      if decide (c = "."%char) then
        '(us, rest) ← field 6 r ;
        if decide (rest = []) then Some us else None
      else None
  end.

Definition parse_chars (l : list ascii) : option t :=
  '(y, l) ← field 4 l ; l ← expect "-" l ;
  '(mo, l) ← field 2 l ; l ← expect "-" l ;
  '(dd, l) ← field 2 l ; l ← expect "T" l ;
  '(h, l) ← field 2 l ; l ← expect ":" l ;
  '(mi, l) ← field 2 l ; l ← expect ":" l ;
  '(s, l) ← field 2 l ;
  us ← fraction l ;
  let d := {| year := y; month := mo; day := dd;
              hour := h; minute := mi; second := s; microsecond := us |} in
  if valid d then Some d else None.

(** [datetime.fromisoformat(s)] on the two layouts [isoformat] writes for
    a naive instant; [ValueError] on anything else.  (The interpreter
    also reads other ISO-8601 layouts, which [isoformat] never writes;
    no statement below depends on their rejection.) *)
Definition fromisoformat (s : string) : outcome t :=
  match parse_chars (String.list_ascii_of_string s) with
  | Some d => Returns d
  | None => Raises (ValueError ("Invalid isoformat string: " +:+ s))
  end.

End Datetime.

(** ** Python list idioms *)

(** [l[start:]]: a negative [start] counts from the end, and an index
    beyond either end is clipped. *)
Definition py_slice_from {A} (start : Z) (l : list A) : list A :=
  let len := Z.of_nat (length l) in
  let i := if start <? 0 then Z.max (start + len) 0 else Z.min start len in
  drop (Z.to_nat i) l.

(** [sum(l)]: starts from the int [0] and adds the items from left to
    right with [+].  (From version 3.12 on the interpreter compensates the
    rounding errors of a run of floats, so on such a run its last bits may
    differ from this fold; sums of ints, and of ints followed by one float,
    are the same.) *)
Definition py_sum (l : list Number) : outcome Number :=
  foldl (λ acc x, a ← acc ; py_add a x) (Returns (PyInt 0)) l.

(** [max(l)]: the first item, replaced by each later item that is [>]
    the one held; [min(l)] likewise with [<].  The list is not empty
    where the program calls them. *)
Definition py_max (first : Number) (rest : list Number) : Number :=
  foldl (λ held item, if py_gt item held then item else held) first rest.
Definition py_min (first : Number) (rest : list Number) : Number :=
  foldl (λ held item, if py_lt item held then item else held) first rest.

(** ** The operation log ([history.py]) *)

(** What the ['timestamp'] key of an entry holds: an instant in memory, its
    text in the JSON document. *)
Inductive timestamp_value : Type :=
  | Instant (d : Datetime.t)
  | IsoText (s : string).

Module History.

(** An entry is a dict with the keys ['timestamp'], ['operation'],
    ['operands'] and ['result'].  Only ['timestamp'] is ever tested for
    presence, so it alone is optional here. *)
Record entry : Type := {
  timestamp : option timestamp_value;
  operation : string;
  operands : list Number;
  result : Number
}.

Record t : Type := {
  max_size : Z;
  operations : list entry
}.

(** [__init__(max_size=100)] *)
Definition init (max_size : Z) : t :=
  {| max_size := max_size; operations := [] |}.
Definition default_max_size : Z := 100.

Definition set_operations (ops : list entry) (self : t) : t :=
  {| max_size := max_size self; operations := ops |}.

(** [add_operation]; [now] is what [datetime.now()] answers. *)
Definition add_operation (operation : string) (operands : list Number)
    (result : Number) (now : Datetime.t) : method t () :=
  λ self,
    let entry := {| timestamp := Some (Instant now);
                    operation := operation;
                    operands := operands;
                    result := result |} in
    let self := set_operations (operations self ++ [entry]) self in
    if Z.of_nat (length (operations self)) >? max_size self then
      (Returns (), set_operations (drop 1 (operations self)) self)
    else
      (Returns (), self).

Definition get_last_operations (count : Z) : method t (list entry) :=
  λ self,
    if count <=? 0 then (Returns [], self)
    else (Returns (reverse (py_slice_from (- count) (operations self))), self).

Definition get_all_operations : method t (list entry) :=
  gets (λ self, reverse (operations self)).

Definition clear_history : method t () :=
  λ self, (Returns (), set_operations [] self).

Definition get_operation_count : method t Z :=
  gets (λ self, Z.of_nat (length (operations self))).

Definition search_operations (operation_type : string) : method t (list entry) :=
  gets (λ self,
    let matching_ops :=
      filter (λ op, operation op = operation_type) (operations self) in
    reverse matching_ops).

Record statistics : Type := {
  total_operations : Z;
  operation_types : gmap string Z;
  average_result : option Number;
  max_result : option Number;
  min_result : option Number
}.

(** One turn of the loop of [get_statistics]. *)
Definition tally (acc : gmap string Z * list Number) (op : entry)
    : gmap string Z * list Number :=
  let '(operation_types, results) := acc in
  let op_type := operation op in
  (<[op_type := default 0 (operation_types !! op_type) + 1]> operation_types,
   results ++ [result op]).

Definition get_statistics : method t statistics :=
  λ self,
    match operations self with
    | [] =>
        (Returns {| total_operations := 0; operation_types := ∅;
                    average_result := None; max_result := None;
                    min_result := None |}, self)
    | _ =>
        let '(operation_types, results) := foldl tally (∅, []) (operations self) in
        let average :=
          total ← py_sum results ;
          py_truediv total (PyInt (Z.of_nat (length results))) in
        match average, results with
        | Returns average, first :: rest =>
            (Returns {| total_operations := Z.of_nat (length (operations self));
                        operation_types := operation_types;
                        average_result := Some average;
                        max_result := Some (py_max first rest);
                        min_result := Some (py_min first rest) |}, self)
        | Returns _, [] => (Raises (ValueError "max() arg is an empty sequence"), self)
        | Raises e, _ => (Raises e, self)
        end
    end.

End History.

(** ** The persistence adapter ([persistence.py]) *)

(** What a path holds: text that [json.load] rejects, or a JSON array of
    entry objects.  Numbers and strings are taken to be written and read
    back by the [json] module without change (an int in full, a float by
    its shortest decimal that reads back to it, NaN and the infinities by
    their names), so the array is kept as the entries it denotes; an
    instant cannot be written, only its text. *)
Inductive file_content : Type :=
  | Malformed
  | JsonArray (ops : list History.entry).

(** The file system: what each existing path holds. *)
Abbreviation filesystem := (gmap string file_content).

(** How the operating system may fail a write. *)
Inductive write_fault : Type :=
  | WriteSucceeds
  | OpenFails          (* [open] raises: the file is untouched *)
  | DumpFails.         (* the write stops midway: the file is left truncated *)

Module HistoryPersistence.

Record t : Type := { file_path : string }.

(** [__init__(file_path="calculator_history.json")] *)
Definition init (file_path : string) : t := {| file_path := file_path |}.
Definition default_file_path : string := "calculator_history.json".

Definition set_timestamp (v : timestamp_value) (op : History.entry) : History.entry :=
  {| History.timestamp := Some v;
     History.operation := History.operation op;
     History.operands := History.operands op;
     History.result := History.result op |}.

(** The body of the loop of [save_history]. *)
Definition serializable (op : History.entry) : History.entry :=
  match History.timestamp op with
  | Some (Instant d) => set_timestamp (IsoText (Datetime.isoformat d)) op
  | _ => op
  end.

(** [save_history]; [IOError] and [OSError] are caught and answered by
    [False]. *)
Definition save_history (self : t) (operations : list History.entry)
    (fault : write_fault) : method filesystem bool :=
  λ fs,
    let serializable_ops := serializable <$> operations in
    match fault with
    | WriteSucceeds =>
        (Returns true, <[file_path self := JsonArray serializable_ops]> fs)
    | OpenFails => (Returns false, fs)
    | DumpFails => (Returns false, <[file_path self := Malformed]> fs)
    end.

(** The body of the loop of [load_history]; [fromisoformat] may raise. *)
Definition restore (op : History.entry) : outcome History.entry :=
  match History.timestamp op with
  | Some (IsoText s) =>
      d ← Datetime.fromisoformat s ; mret (set_timestamp (Instant d) op)
  | _ => mret op
  end.

Fixpoint restore_all (ops : list History.entry) : outcome (list History.entry) :=
  match ops with
  | [] => mret []
  | op :: rest =>
      op' ← restore op ; rest' ← restore_all rest ; mret (op' :: rest')
  end.

(** [load_history]; [IOError], [OSError] and [JSONDecodeError] are caught
    and answered by the empty list, a [ValueError] of [fromisoformat] is
    not. *)
Definition load_history (self : t) (read_fails : bool)
    : method filesystem (list History.entry) :=
  λ fs,
    match fs !! file_path self with
    | None => (Returns [], fs)
    | Some content =>
        if read_fails then (Returns [], fs)
        else match content with
             | Malformed => (Returns [], fs)
             | JsonArray operations => (restore_all operations, fs)
             end
    end.



End HistoryPersistence.

(** ** The facade ([main.py]) *)

Module CalculatorWithHistory.

Record t : Type := {
  calculator : Calculator.t;
  history : History.t;
  persistence : option HistoryPersistence.t
}.

(** [__init__(persistence_file=None)]; an empty name counts as none. *)
Definition init (persistence_file : option string) : t :=
  {| calculator := Calculator.init;
     history := History.init History.default_max_size;
     persistence :=
       match persistence_file with
       | Some name => if decide (name = EmptyString) then None
                      else Some (HistoryPersistence.init name)
       | None => None
       end |}.

Definition set_calculator (c : Calculator.t) (self : t) : t :=
  {| calculator := c; history := history self; persistence := persistence self |}.
Definition set_history (h : History.t) (self : t) : t :=
  {| calculator := calculator self; history := h; persistence := persistence self |}.

(** [self.calculator.m(...)] and [self.history.m(...)] *)
Definition on_calculator {A} (m : method Calculator.t A) : method t A :=
  within calculator set_calculator m.
Definition on_history {A} (m : method History.t A) : method t A :=
  within history set_history m.

Definition add (a b : Number) (now : Datetime.t) : method t Number :=
  result ← on_calculator (Calculator.add a b) ;
  on_history (History.add_operation "add" [a; b] result now) ;;
  mret result.

Definition subtract (a b : Number) (now : Datetime.t) : method t Number :=
  result ← on_calculator (Calculator.subtract a b) ;
  on_history (History.add_operation "subtract" [a; b] result now) ;;
  mret result.

Definition multiply (a b : Number) (now : Datetime.t) : method t Number :=
  result ← on_calculator (Calculator.multiply a b) ;
  on_history (History.add_operation "multiply" [a; b] result now) ;;
  mret result.

Definition divide (a b : Number) (now : Datetime.t) : method t Number :=
  result ← on_calculator (Calculator.divide a b) ;
  on_history (History.add_operation "divide" [a; b] result now) ;;
  mret result.

Definition power `{FloatPow} (base exponent : Number) (now : Datetime.t)
    : method t Number :=
  result ← on_calculator (Calculator.power base exponent) ;
  on_history (History.add_operation "power" [base; exponent] result now) ;;
  mret result.

Definition square_root (number : Number) (now : Datetime.t) : method t Number :=
  result ← on_calculator (Calculator.square_root number) ;
  on_history (History.add_operation "square_root" [number] result now) ;;
  mret result.

Definition get_history (count : Z) : method t (list History.entry) :=
  on_history (History.get_last_operations count).

Definition clear_history : method t () :=
  on_history History.clear_history.

Definition get_statistics : method t History.statistics :=
  on_history History.get_statistics.

(** The two persistence methods act on the facade and on the files. *)
Definition on_files {A} (m : method filesystem A) : method (t * filesystem) A :=
  within snd (λ fs w, (fst w, fs)) m.
Definition on_self {A} (m : method t A) : method (t * filesystem) A :=
  within fst (λ self w, (self, snd w)) m.


Definition load_from_file (read_fails : bool) : method (t * filesystem) bool :=
  self ← on_self get ;
  match persistence self with
  | None => raise (ValueError "No persistence file configured")
  | Some p =>
      loaded_ops ← on_files (HistoryPersistence.load_history p read_fails) ;
      match loaded_ops with
      | _ :: _ =>
          on_self (put (set_history
                          (History.set_operations loaded_ops (history self))
                          self)) ;;
          mret true
      | [] => mret false
      end
  end.

End CalculatorWithHistory.

(** ** Calls and runs

    The six operations as data, so that statements can range over every
    operation and over sequences of calls. *)

Inductive call : Type :=
  | Add (a b : Number)
  | Subtract (a b : Number)
  | Multiply (a b : Number)
  | Divide (a b : Number)
  | Power (base exponent : Number)
  | SquareRoot (number : Number).

(** The tag and the operands the facade logs for a call. *)
Definition call_name (c : call) : string :=
  match c with
  | Add _ _ => "add"
  | Subtract _ _ => "subtract"
  | Multiply _ _ => "multiply"
  | Divide _ _ => "divide"
  | Power _ _ => "power"
  | SquareRoot _ => "square_root"
  end.

Definition call_operands (c : call) : list Number :=
  match c with
  | Add a b | Subtract a b | Multiply a b | Divide a b | Power a b => [a; b]
  | SquareRoot x => [x]
  end.

(** The call on the evaluator. *)
Definition evaluate `{FloatPow} (c : call) : method Calculator.t Number :=
  match c with
  | Add a b => Calculator.add a b
  | Subtract a b => Calculator.subtract a b
  | Multiply a b => Calculator.multiply a b
  | Divide a b => Calculator.divide a b
  | Power base exponent => Calculator.power base exponent
  | SquareRoot number => Calculator.square_root number
  end.

(** The call on the facade, at the instant [now]. *)
Definition perform `{FloatPow} (c : call) (now : Datetime.t)
    : method CalculatorWithHistory.t Number :=
  match c with
  | Add a b => CalculatorWithHistory.add a b now
  | Subtract a b => CalculatorWithHistory.subtract a b now
  | Multiply a b => CalculatorWithHistory.multiply a b now
  | Divide a b => CalculatorWithHistory.divide a b now
  | Power base exponent => CalculatorWithHistory.power base exponent now
  | SquareRoot number => CalculatorWithHistory.square_root number now
  end.

(** Every call the evaluator offers: one of the six operations,
    [get_last_result()] or [clear()]. *)
Inductive evaluator_call : Type :=
  | Operation (c : call)
  | GetLastResult
  | Clear.

(** The call on the evaluator, and what the caller gets: a number, or
    [None] from [clear()]. *)
Definition invoke `{FloatPow} (c : evaluator_call)
    : method Calculator.t (option Number) :=
  match c with
  | Operation c => result ← evaluate c ; mret (Some result)
  | GetLastResult => result ← Calculator.get_last_result ; mret (Some result)
  | Clear => Calculator.clear ;; mret None
  end.

(** A caller that makes the calls one after the other and goes on after a
    failure: what each call answered, and the state at the end. *)
Fixpoint evaluate_all `{FloatPow} (cs : list evaluator_call) (self : Calculator.t)
    : list (outcome (option Number)) * Calculator.t :=
  match cs with
  | [] => ([], self)
  | c :: rest =>
      let '(o, self) := invoke c self in
      let '(os, self) := evaluate_all rest self in
      (o :: os, self)
  end.

Fixpoint perform_all `{FloatPow} (cs : list (call * Datetime.t))
    (self : CalculatorWithHistory.t)
    : list (outcome Number) * CalculatorWithHistory.t :=
  match cs with
  | [] => ([], self)
  | (c, now) :: rest =>
      let '(o, self) := perform c now self in
      let '(os, self) := perform_all rest self in
      (o :: os, self)
  end.

(** What a caller who held [held] as the last result expects after the
    call [c] answered [o]: the result when an operation returned, [0] after
    [clear()], and [held] still after an operation that raised or after
    [get_last_result()]. *)
Definition held_after (held : Number) (c : evaluator_call)
    (o : outcome (option Number)) : Number :=
  match c, o with
  | Operation _, Returns (Some r) => r
  | Clear, _ => PyInt 0
  | _, _ => held
  end.

(** Read off the calls and their answers alone: the result of the latest
    operation that returned, [0] when a [clear()] came after it, [start]
    when there was neither. *)
Fixpoint latest (start : Number) (cs : list evaluator_call)
    (answers : list (outcome (option Number))) : Number :=
  match cs, answers with
  | c :: cs, o :: answers => latest (held_after start c o) cs answers
  | _, _ => start
  end.

(** The entry [add_operation] builds. *)
Definition logged (name : string) (operands : list Number) (result : Number)
    (now : Datetime.t) : History.entry :=
  {| History.timestamp := Some (Instant now);
     History.operation := name;
     History.operands := operands;
     History.result := result |}.

(** The number of entries of [ops] tagged [name], counted one by one. *)
Fixpoint occurrences (name : string) (ops : list History.entry) : nat :=
  match ops with
  | [] => O
  | op :: rest =>
      if decide (History.operation op = name) then S (occurrences name rest)
      else occurrences name rest
  end.

(** The last [capacity] items of [l], all of it when it is shorter. *)
Definition keep_last {A} (capacity : Z) (l : list A) : list A :=
  drop (length l - Z.to_nat capacity) l.

(** The entries a run of facade calls has logged: one for each call that
    returned, in the order of the calls. *)
Fixpoint records (cs : list (call * Datetime.t)) (answers : list (outcome Number))
    : list History.entry :=
  match cs, answers with
  | (c, now) :: cs, Returns r :: answers =>
      logged (call_name c) (call_operands c) r now :: records cs answers
  | _ :: cs, Raises _ :: answers => records cs answers
  | _, _ => []
  end.

(** The log keeps within its capacity. *)
Definition within_capacity (self : History.t) : Prop :=
  Z.of_nat (length (History.operations self)) ≤ History.max_size self.

(** A record of the data model: its timestamp is an instant, one that the
    [datetime] constructor accepts. *)
Definition is_record (op : History.entry) : Prop :=
  ∃ d, History.timestamp op = Some (Instant d) ∧ Datetime.valid d = true.

(** The order of the extended rationals. *)
Definition extended_le (u v : extended) : Prop :=
  match u, v with
  | NegInfinity, _ | _, PosInfinity => True
  | Finite p, Finite q => (p <= q)%Q
  | _, _ => False
  end.

(** Not a NaN: a number with a place in the order. *)
Definition ordered (x : Number) : bool :=
  match x with PyFloat S754_nan => false | _ => true end.

(** How often [get_statistics] should report the tag [name]. *)
Definition tag_count (name : string) (ops : list History.entry) : option Z :=
  match occurrences name ops with
  | O => None
  | S n => Some (Z.of_nat (S n))
  end.






(** ** Sample data *)

Definition instant (s us : Z) : Datetime.t :=
  {| Datetime.year := 2024; Datetime.month := 2; Datetime.day := 29;
     Datetime.hour := 13; Datetime.minute := 5; Datetime.second := s;
     Datetime.microsecond := us |}.

(** The log after [add(10, 5)], [multiply(3, 7)], [subtract(20, 8)]. *)
Definition sample_ops : list History.entry :=
  [ logged "add" [PyInt 10; PyInt 5] (PyInt 15) (instant 1 0);
    logged "multiply" [PyInt 3; PyInt 7] (PyInt 21) (instant 1 250000);
    logged "subtract" [PyInt 20; PyInt 8] (PyInt 12) (instant 2 17) ].

Definition sample_log : History.t :=
  {| History.max_size := History.default_max_size;
     History.operations := sample_ops |}.

(** A freshly built facade that persists to [history.json]. *)
Definition fresh_facade : CalculatorWithHistory.t :=
  CalculatorWithHistory.init (Some "history.json").

(** Closed examples need some [FloatPow]; the ones below only raise ints to
    non-negative int powers or fail before the power is taken, so this one,
    which always reports a result out of range, is never consulted. *)
Definition pow_out_of_range : FloatPow :=
  λ _ _, Raises (OverflowError "(34, 'Numerical result out of range')").

Definition half : Number := PyFloat (S754_finite false 4503599627370496 (-53)).

(** [add(5, 3)], then three calls that fail and a reading. *)
Definition sample_calls : list evaluator_call :=
  [ Operation (Add (PyInt 5) (PyInt 3));
    Operation (Divide (PyInt 4) (PyInt 0));
    Operation (SquareRoot (PyInt (-16)));
    Operation (Power (PyInt (-2)) half);
    GetLastResult ].

(** The same calls, then [clear()], a call that fails and [multiply(2, 3)]. *)
Definition sample_calls_with_clear : list evaluator_call :=
  sample_calls
  ++ [ Clear;
       Operation (Divide (PyInt 4) (PyInt 0));
       Operation (Multiply (PyInt 2) (PyInt 3)) ].

(** A document of 101 entries, one more than the default capacity, as a
    facade with a larger log would have saved it. *)
Definition oversized_ops : list History.entry :=
  (λ i, logged "add" [PyInt i; PyInt 1] (PyInt (i + 1)) (instant 0 i))
    <$> seqZ 0 101.

Definition oversized_files : filesystem :=
  {[ "history.json" := JsonArray (HistoryPersistence.serializable <$> oversized_ops) ]}.

(** The files after a facade holding [sample_ops] saved to [history.json]. *)
Definition sample_files : filesystem :=
  {[ "history.json" := JsonArray (HistoryPersistence.serializable <$> sample_ops) ]}.

(** The six results of the statistics test: [15, 45, 12, 40, 8, 4.0]. *)
Definition statistics_log : History.t :=
  {| History.max_size := History.default_max_size;
     History.operations :=
       [ logged "add" [PyInt 10; PyInt 5] (PyInt 15) (instant 1 0);
         logged "add" [PyInt 20; PyInt 25] (PyInt 45) (instant 2 0);
         logged "multiply" [PyInt 3; PyInt 4] (PyInt 12) (instant 3 0);
         logged "subtract" [PyInt 50; PyInt 10] (PyInt 40) (instant 4 0);
         logged "power" [PyInt 2; PyInt 3] (PyInt 8) (instant 5 0);
         logged "square_root" [PyInt 16]
           (PyFloat (S754_finite false 4503599627370496 (-50))) (instant 6 0) ] |}.

(** [20.666666666666668], the double nearest to [124 / 6]. *)
Definition mean_of_statistics_log : Number :=
  PyFloat (S754_finite false 5817149518686891 (-48)).

Definition plus_infinity : Number := PyFloat (S754_infinity false).
Definition minus_infinity : Number := PyFloat (S754_infinity true).
Definition nan : Number := PyFloat S754_nan.
Definition one : Number := PyFloat (S754_finite false 4503599627370496 (-52)).
Definition two : Number := PyFloat (S754_finite false 4503599627370496 (-51)).

(** The facade after [multiply(10**200, 10**200)]. *)
Definition facade_with_huge_result : CalculatorWithHistory.t :=
  snd (CalculatorWithHistory.multiply (PyInt (10 ^ 200)) (PyInt (10 ^ 200))
         (instant 1 0) fresh_facade).

(** The facade after [add(inf, -inf)] and [add(1.0, 1.0)]. *)
Definition facade_with_nan_result : CalculatorWithHistory.t :=
  snd (CalculatorWithHistory.add one one (instant 2 0)
         (snd (CalculatorWithHistory.add plus_infinity minus_infinity
                 (instant 1 0) fresh_facade))).

(** [1e308], a finite double whose double is not. *)
Definition large : Number := PyFloat (S754_finite false 5010420900022432 971).

(** A facade whose log was replaced by one of capacity 5, and ten calls
    [add(i, 1)]. *)
Definition small_facade : CalculatorWithHistory.t :=
  CalculatorWithHistory.set_history (History.init 5) fresh_facade.

Definition ten_calls : list (call * Datetime.t) :=
  (λ i, (Add (PyInt i) (PyInt 1), instant 0 i)) <$> seqZ 0 10.

(** * Properties *)

Ltac run :=
  unfold mbind, mret, method_bind, method_ret, outcome_bind, outcome_ret,
    eval, raise, gets, get, put, within in *; simpl in *.

(** ** The log: reading *)

Section Reading.
Context {A : Type}.
Implicit Types l : list A.

Lemma py_slice_from_last (count : Z) l :
  0 < count →
  py_slice_from (- count) l = drop (length l - Z.to_nat count) l.
Proof.
  intros Hc. unfold py_slice_from.
  destruct (Z.ltb_spec (- count) 0) as [_|]; [|lia].
  f_equal. lia.
Qed.

Lemma py_slice_from_last_all (count : Z) l :
  Z.of_nat (length l) ≤ count → 0 < count → py_slice_from (- count) l = l.
Proof.
  intros Hlen Hc. rewrite py_slice_from_last by done.
  replace (length l - Z.to_nat count)%nat with O by lia. done.
Qed.
End Reading.

Lemma occurrences_filter (name : string) (ops : list History.entry) :
  length (filter (λ op, History.operation op = name) ops) = occurrences name ops.
Proof.
  induction ops as [|op ops IH]; [done|].
  rewrite filter_cons. simpl. case_decide; simpl; by rewrite IH.
Qed.

(** C5. [recent(count)] ([get_last_operations]) answers the empty list for
    a count that is zero or negative, the whole log, most recent first, for
    a count beyond its length, and otherwise the last [count] entries, most
    recent first; neither it nor [all()] nor [search] changes the log. *)
Theorem recent_returns_last (count : Z) (name : string) (self : History.t) :
  (count ≤ 0 → fst (History.get_last_operations count self) = Returns [])
  ∧ (Z.of_nat (length (History.operations self)) < count →
       fst (History.get_last_operations count self)
       = Returns (reverse (History.operations self)))
  ∧ (0 < count ≤ Z.of_nat (length (History.operations self)) →
       ∃ older recent,
         History.operations self = older ++ recent
         ∧ Z.of_nat (length recent) = count
         ∧ fst (History.get_last_operations count self) = Returns (reverse recent))
  ∧ snd (History.get_last_operations count self) = self
  ∧ snd (History.get_all_operations self) = self
  ∧ snd (History.search_operations name self) = self.
Proof.
  set (ops := History.operations self).
  unfold History.get_last_operations. repeat split.
  - intros Hc. destruct (Z.leb_spec count 0); [done|lia].
  - intros Hc. destruct (Z.leb_spec count 0); [lia|]. simpl.
    rewrite py_slice_from_last_all by (fold ops; lia). done.
  - intros [Hc Hlen]. destruct (Z.leb_spec count 0); [lia|]. simpl.
    rewrite py_slice_from_last by done. fold ops.
    exists (take (length ops - Z.to_nat count) ops),
           (drop (length ops - Z.to_nat count) ops).
    split; [by rewrite take_drop|]. split; [|done].
    rewrite length_drop. lia.
  - by destruct (count <=? 0).
Qed.

Lemma recent_returns_last_witness :
  fst (History.get_last_operations 0 sample_log) = Returns []
  ∧ fst (History.get_last_operations 7 sample_log) = Returns (reverse sample_ops)
  ∧ ∃ older recent,
      sample_ops = older ++ recent
      ∧ Z.of_nat (length recent) = 2
      ∧ fst (History.get_last_operations 2 sample_log) = Returns (reverse recent).
Proof.
  split; [|split].
  - apply (recent_returns_last 0 "add" sample_log). lia.
  - apply (recent_returns_last 7 "add" sample_log). simpl. lia.
  - apply (recent_returns_last 2 "add" sample_log). simpl. lia.
Defined.

(** C8. [search(name)] ([search_operations]) answers exactly the entries
    tagged [name], in the order of the most-recent-first listing of the log,
    as many as an independent count finds, and leaves the log as it was. *)
Theorem search_returns_matching (name : string) (self : History.t) :
  ∃ found,
    History.search_operations name self = (Returns found, self)
    ∧ found = filter (λ op, History.operation op = name)
                (reverse (History.operations self))
    ∧ fst (History.get_all_operations self)
      = Returns (reverse (History.operations self))
    ∧ (∀ op, op ∈ found ↔
             op ∈ History.operations self ∧ History.operation op = name)
    ∧ found `sublist_of` reverse (History.operations self)
    ∧ length found = occurrences name (History.operations self).
Proof.
  eexists. split; [reflexivity|]. split; [by rewrite filter_reverse|].
  split; [done|]. split; [|split].
  - intros op. rewrite elem_of_reverse, list_elem_of_filter. tauto.
  - rewrite <- filter_reverse. apply sublist_filter.
  - rewrite length_reverse. apply occurrences_filter.
Qed.

(** ** The evaluator: what a call leaves behind *)

Section Evaluator.
Context `{FloatPow}.

(** A call either returns a value, which becomes the last result, or raises
    and leaves the evaluator as it was. *)
Lemma evaluate_cases (c : call) (self : Calculator.t) :
  (∃ r, evaluate c self = (Returns r, {| Calculator.last_result := r |}))
  ∨ (∃ e, evaluate c self = (Raises e, self)).
Proof.
  destruct c as [a b|a b|a b|a b|base exponent|number]; simpl.
  - unfold Calculator.add. run. destruct (py_add a b); eauto.
  - unfold Calculator.subtract. run. destruct (py_sub a b); eauto.
  - unfold Calculator.multiply. run. destruct (py_mul a b); eauto.
  - unfold Calculator.divide. run.
    destruct (py_eq b (PyInt 0)); [eauto|]. destruct (py_truediv a b); eauto.
  - unfold Calculator.power, except_OverflowError. run.
    destruct (py_lt base (PyInt 0) && negb (isinstance_int exponent)); [eauto|].
    destruct (py_pow base exponent) as [r|[]]; simpl; eauto.
    destruct (math_isnan r) as [[]|[]]; simpl; eauto.
    destruct (math_isinf r) as [[]|[]]; simpl; eauto.
  - unfold Calculator.square_root. run.
    destruct (py_lt number (PyInt 0)); [eauto|]. destruct (math_sqrt number); eauto.
Qed.


Lemma evaluate_raises (c : call) (self : Calculator.t) (e : exn) :
  fst (evaluate c self) = Raises e → evaluate c self = (Raises e, self).
Proof.
  destruct (evaluate_cases c self) as [[r Hr]|[e' He]].
  - rewrite Hr. discriminate.
  - rewrite He. simpl. by intros [= ->].
Qed.


(** The facade runs the evaluator and, when it returned, logs the call. *)
Lemma perform_evaluate (c : call) (now : Datetime.t) (self : CalculatorWithHistory.t) :
  perform c now self =
  match evaluate c (CalculatorWithHistory.calculator self) with
  | (Returns r, calc) =>
      (Returns r,
       {| CalculatorWithHistory.calculator := calc;
          CalculatorWithHistory.history :=
            snd (History.add_operation (call_name c) (call_operands c) r now
                   (CalculatorWithHistory.history self));
          CalculatorWithHistory.persistence :=
            CalculatorWithHistory.persistence self |})
  | (Raises e, calc) => (Raises e, CalculatorWithHistory.set_calculator calc self)
  end.
Proof.
  destruct c; simpl;
    unfold CalculatorWithHistory.add, CalculatorWithHistory.subtract,
      CalculatorWithHistory.multiply, CalculatorWithHistory.divide,
      CalculatorWithHistory.power, CalculatorWithHistory.square_root,
      CalculatorWithHistory.on_calculator, CalculatorWithHistory.on_history;
    run.
  all: match goal with |- context [?m (CalculatorWithHistory.calculator ?s)] =>
         destruct (m (CalculatorWithHistory.calculator s)) as [[r|e] calc]
       end; simpl; try done.
  all: unfold History.add_operation; simpl; by destruct (_ >? _).
Qed.

Lemma set_calculator_same (self : CalculatorWithHistory.t) :
  CalculatorWithHistory.set_calculator (CalculatorWithHistory.calculator self) self
  = self.
Proof. by destruct self. Qed.

(** The entries after [add_operation]: the new one at the tail, and the
    head gone when the log was already at (or beyond) its capacity. *)
Lemma add_operation_operations name operands result now (self : History.t) :
  History.operations (snd (History.add_operation name operands result now self))
  = if decide (Z.of_nat (length (History.operations self)) < History.max_size self)
    then History.operations self ++ [logged name operands result now]
    else drop 1 (History.operations self ++ [logged name operands result now]).
Proof.
  unfold History.add_operation. simpl. rewrite length_app. simpl.
  case_decide; destruct (Z.gtb_spec (Z.of_nat (length (History.operations self) + 1))
                           (History.max_size self)); simpl; try done; lia.
Qed.

Lemma add_operation_max_size name operands result now (self : History.t) :
  History.max_size (snd (History.add_operation name operands result now self))
  = History.max_size self.
Proof. unfold History.add_operation. simpl. by case_match. Qed.

End Evaluator.

(** ** The facade: all or nothing *)

Section Facade.
Context `{FloatPow}.

(** C1. Whatever the operation and its operands: when the facade call
    returns, it returns what the evaluator computed and the log has the
    record of the call appended (the oldest entry making room when the log
    was full); when it raises, the facade, and with it the log, is exactly
    as before.  [divide(x, 0)] raises [ZeroDivisionError] and the count is
    unchanged. *)
Theorem facade_all_or_nothing (c : call) (now : Datetime.t)
    (self : CalculatorWithHistory.t) :
  (∀ r self', perform c now self = (Returns r, self') →
     fst (evaluate c (CalculatorWithHistory.calculator self)) = Returns r
     ∧ History.operations (CalculatorWithHistory.history self')
       = (if decide (Z.of_nat (length (History.operations
                                         (CalculatorWithHistory.history self)))
                     < History.max_size (CalculatorWithHistory.history self))
          then History.operations (CalculatorWithHistory.history self)
               ++ [logged (call_name c) (call_operands c) r now]
          else drop 1 (History.operations (CalculatorWithHistory.history self)
                       ++ [logged (call_name c) (call_operands c) r now]))
     ∧ History.max_size (CalculatorWithHistory.history self')
       = History.max_size (CalculatorWithHistory.history self))
  ∧ (∀ e self', perform c now self = (Raises e, self') →
       self' = self
       ∧ History.get_operation_count (CalculatorWithHistory.history self')
         = History.get_operation_count (CalculatorWithHistory.history self))
  ∧ (∀ x zero, py_eq zero (PyInt 0) = true →
       perform (Divide x zero) now self
       = (Raises (ZeroDivisionError "Cannot divide by zero"), self)).
Proof.
  split; [|split].
  - intros r self' Hrun. rewrite perform_evaluate in Hrun.
    destruct (evaluate c _) as [[r'|e] calc] eqn:Hev; [|discriminate].
    injection Hrun as -> <-. simpl. split; [done|]. split.
    + apply add_operation_operations.
    + apply add_operation_max_size.
  - intros e self' Hrun. rewrite perform_evaluate in Hrun.
    destruct (evaluate c _) as [[r'|e'] calc] eqn:Hev; [discriminate|].
    injection Hrun as <- <-.
    pose proof (evaluate_raises c (CalculatorWithHistory.calculator self) e') as Hsame.
    rewrite Hev in Hsame. specialize (Hsame eq_refl). injection Hsame as ->.
    by rewrite set_calculator_same.
  - intros x zero Hzero. rewrite perform_evaluate. simpl.
    unfold Calculator.divide. rewrite Hzero. run.
    by rewrite set_calculator_same.
Qed.

(** What each kind of call does to the last result. *)
Lemma invoke_cases (c : evaluator_call) (self : Calculator.t) :
  ∀ o self', invoke c self = (o, self') →
    Calculator.last_result self' = held_after (Calculator.last_result self) c o
    ∧ (∀ e, o = Raises e → self' = self).
Proof.
  intros o self'. destruct c as [c| |]; cbn.
  - unfold mbind, method_bind.
    destruct (evaluate_cases c self) as [[r ->]|[e ->]]; intros [= <- <-];
      (split; [done|]); [discriminate|done].
  - intros [= <- <-]. split; [done|discriminate].
  - intros [= <- <-]. split; [done|discriminate].
Qed.

(** C10. [get_last_result()] answers [0] on a new evaluator and, after any
    sequence of evaluator calls, the result of the latest operation that
    returned, or [0] when [clear()] was called after it: [clear()] resets
    the last result to [0].  A call that raises (a zero divisor, a negative
    radicand, a negative base with an exponent that is not an int, or
    anything else) leaves the last result alone, and so does
    [get_last_result()] itself. *)
Theorem last_result_tracks_latest (cs : list evaluator_call) :
  Calculator.get_last_result Calculator.init = (Returns (PyInt 0), Calculator.init)
  ∧ (∀ answers self,
       evaluate_all cs Calculator.init = (answers, self) →
       Calculator.get_last_result self
       = (Returns (latest (PyInt 0) cs answers), self))
  ∧ (∀ self, invoke Clear self = (Returns None, {| Calculator.last_result := PyInt 0 |}))
  ∧ (∀ self, invoke GetLastResult self
             = (Returns (Some (Calculator.last_result self)), self))
  ∧ (∀ c self r, fst (invoke (Operation c) self) = Returns r →
       ∃ result, r = Some result
                 ∧ Calculator.last_result (snd (invoke (Operation c) self)) = result)
  ∧ (∀ c self e, fst (invoke c self) = Raises e → snd (invoke c self) = self)
  ∧ (∀ a zero self, py_eq zero (PyInt 0) = true →
       invoke (Operation (Divide a zero)) self
       = (Raises (ZeroDivisionError "Cannot divide by zero"), self))
  ∧ (∀ x self, py_lt x (PyInt 0) = true →
       invoke (Operation (SquareRoot x)) self
       = (Raises (ValueError "Cannot calculate square root of negative number"), self))
  ∧ (∀ base exponent self,
       py_lt base (PyInt 0) = true → isinstance_int exponent = false →
       invoke (Operation (Power base exponent)) self
       = (Raises (ValueError "Cannot raise negative number to non-integer power"),
          self)).
Proof.
  split; [done|]. split; [|split; [done|split; [done|split; [|split; [|split; [|split]]]]]].
  - assert (Hgen : ∀ start answers self,
      evaluate_all cs start = (answers, self) →
      Calculator.last_result self = latest (Calculator.last_result start) cs answers).
    { induction cs as [|c cs IH]; intros start answers self; simpl.
      - by intros [= <- <-].
      - destruct (invoke c start) as [o s1] eqn:Hcall.
        destruct (evaluate_all cs s1) as [os s2] eqn:Hrest.
        intros [= <- <-]. simpl.
        destruct (invoke_cases c start o s1 Hcall) as [<- _].
        apply (IH _ _ _ Hrest). }
    intros answers self Hrun. unfold Calculator.get_last_result, gets.
    by rewrite (Hgen _ _ _ Hrun).
  - intros c self r. cbn. unfold mbind, method_bind.
    destruct (evaluate_cases c self) as [[r' ->]|[e ->]]; [|discriminate].
    intros [= <-]. by exists r'.
  - intros c self e He.
    destruct (invoke c self) as [o self'] eqn:Hcall. cbn in *. subst o.
    destruct (invoke_cases c self _ _ Hcall) as [_ Hsame]. exact (Hsame e eq_refl).
  - intros a zero self Hzero. cbn. unfold mbind, method_bind, Calculator.divide.
    by rewrite Hzero.
  - intros x self Hneg. cbn. unfold mbind, method_bind, Calculator.square_root.
    by rewrite Hneg.
  - intros base exponent self Hneg Hint. cbn.
    unfold mbind, method_bind, Calculator.power, except_OverflowError.
    by rewrite Hneg, Hint.
Qed.

End Facade.

Lemma facade_all_or_nothing_witness :
  History.operations (CalculatorWithHistory.history
    (snd (@perform pow_out_of_range (Add (PyInt 10) (PyInt 5)) (instant 1 0)
            fresh_facade)))
  = [logged "add" [PyInt 10; PyInt 5] (PyInt 15) (instant 1 0)]
  ∧ snd (@perform pow_out_of_range (Power (PyInt (-2)) half) (instant 1 0)
           fresh_facade) = fresh_facade
  ∧ @perform pow_out_of_range (Divide (PyInt 10) (PyFloat (S754_zero true)))
      (instant 1 0) fresh_facade
    = (Raises (ZeroDivisionError "Cannot divide by zero"), fresh_facade).
Proof.
  split; [|split].
  - destruct (@facade_all_or_nothing pow_out_of_range
                (Add (PyInt 10) (PyInt 5)) (instant 1 0) fresh_facade)
      as (Hreturns & _ & _).
    destruct (Hreturns (PyInt 15) _ eq_refl) as (_ & Hops & _). exact Hops.
  - destruct (@facade_all_or_nothing pow_out_of_range
                (Power (PyInt (-2)) half) (instant 1 0) fresh_facade)
      as (_ & Hraises & _).
    destruct (Hraises _ _ eq_refl) as (Hsame & _). exact Hsame.
  - destruct (@facade_all_or_nothing pow_out_of_range
                (Add (PyInt 10) (PyInt 5)) (instant 1 0) fresh_facade)
      as (_ & _ & Hzero).
    apply Hzero. reflexivity.
Defined.

Lemma last_result_tracks_latest_witness :
  Calculator.get_last_result (snd (@evaluate_all pow_out_of_range sample_calls
                                     Calculator.init))
  = (Returns (PyInt 8), {| Calculator.last_result := PyInt 8 |})
  ∧ Calculator.get_last_result
      (snd (@evaluate_all pow_out_of_range sample_calls_with_clear Calculator.init))
    = (Returns (PyInt 6), {| Calculator.last_result := PyInt 6 |})
  ∧ snd (@invoke pow_out_of_range (Operation (SquareRoot (PyInt (-16))))
           {| Calculator.last_result := PyInt 8 |})
    = {| Calculator.last_result := PyInt 8 |}
  ∧ @invoke pow_out_of_range (Operation (Divide (PyInt 4) (PyInt 0)))
      {| Calculator.last_result := PyInt 8 |}
    = (Raises (ZeroDivisionError "Cannot divide by zero"),
       {| Calculator.last_result := PyInt 8 |})
  ∧ @invoke pow_out_of_range (Operation (Power (PyInt (-2)) half))
      {| Calculator.last_result := PyInt 8 |}
    = (Raises (ValueError "Cannot raise negative number to non-integer power"),
       {| Calculator.last_result := PyInt 8 |}).
Proof.
  destruct (@last_result_tracks_latest pow_out_of_range sample_calls)
    as (_ & Hseq & _ & _ & _ & Hfail & Hdiv & Hsqrt & Hpow).
  destruct (@last_result_tracks_latest pow_out_of_range sample_calls_with_clear)
    as (_ & Hclear & _).
  split; [|split; [|split; [|split]]].
  - exact (Hseq _ _ eq_refl).
  - exact (Hclear _ _ eq_refl).
  - exact (Hfail (Operation (SquareRoot (PyInt (-16)))) _ _ eq_refl).
  - apply Hdiv. reflexivity.
  - apply Hpow; reflexivity.
Defined.

(** C10 as stated fails: after [add(5, 3)] and [clear()] the latest
    operation that returned has returned [8], and [get_last_result()]
    answers [0]. *)
Lemma clear_resets_last_result :
  fst (@evaluate_all pow_out_of_range
         [Operation (Add (PyInt 5) (PyInt 3)); Clear] Calculator.init)
  = [Returns (Some (PyInt 8)); Returns None]
  ∧ fst (Calculator.get_last_result
           (snd (@evaluate_all pow_out_of_range
                   [Operation (Add (PyInt 5) (PyInt 3)); Clear] Calculator.init)))
    = Returns (PyInt 0)
  ∧ PyInt 0 ≠ PyInt 8.
Proof. split; [reflexivity|]. split; [reflexivity|discriminate]. Qed.

(** ** The log: appending *)

(** With room for at least one entry, the entry just logged is the last. *)
Lemma add_operation_last name operands result now (self : History.t) :
  1 ≤ History.max_size self →
  ∃ older,
    History.operations (snd (History.add_operation name operands result now self))
    = older ++ [logged name operands result now].
Proof.
  intros Hroom. rewrite add_operation_operations. case_decide as Hlen.
  - by eexists.
  - destruct (History.operations self) as [|op ops]; simpl in *; [lia|].
    by eexists.
Qed.

Lemma get_last_operations_one (self : History.t) older op :
  History.operations self = older ++ [op] →
  fst (History.get_last_operations 1 self) = Returns [op].
Proof.
  intros Hops. unfold History.get_last_operations. simpl.
  rewrite py_slice_from_last, Hops by done.
  rewrite length_app. simpl.
  replace (length older + 1 - Z.to_nat 1)%nat with (length older) by lia.
  by rewrite drop_app_length.
Qed.

(** C6. When [a + b] is defined, the facade's [add(a, b)] returns it, and
    right afterwards the most recent entry of the log is tagged ["add"],
    has the operands [[a, b]] and the result [a + b]. *)
Theorem add_returns_and_logs_sum (a b r : Number) (now : Datetime.t)
    (self : CalculatorWithHistory.t) :
  py_add a b = Returns r →
  1 ≤ History.max_size (CalculatorWithHistory.history self) →
  ∃ self',
    CalculatorWithHistory.add a b now self = (Returns r, self')
    ∧ last (History.operations (CalculatorWithHistory.history self'))
      = Some (logged "add" [a; b] r now)
    ∧ fst (CalculatorWithHistory.get_history 1 self')
      = Returns [logged "add" [a; b] r now]
    ∧ (∀ x y, a = PyInt x → b = PyInt y → r = PyInt (x + y))
    ∧ (∀ x y, a = PyFloat x → b = PyFloat y → r = PyFloat (Float64.add x y)).
Proof.
  intros Hsum Hroom.
  unfold CalculatorWithHistory.add, CalculatorWithHistory.on_calculator,
    CalculatorWithHistory.on_history, Calculator.add.
  run. rewrite Hsum. simpl.
  destruct (add_operation_last "add" [a; b] r now
              (CalculatorWithHistory.history self) Hroom) as [older Holder].
  destruct (History.add_operation "add" [a; b] r now _) as [[[]|e] log] eqn:Hlog;
    [|unfold History.add_operation in Hlog; by destruct (_ >? _)].
  simpl in Holder. eexists. split; [reflexivity|]. simpl.
  split; [by rewrite Holder, last_snoc|].
  split.
  - unfold CalculatorWithHistory.get_history, CalculatorWithHistory.on_history.
    run. exact (get_last_operations_one log older _ Holder).
  - split; intros x y -> ->; unfold py_add, float_binop in Hsum; run; congruence.
Qed.

Lemma add_returns_and_logs_sum_witness :
  ∃ self',
    CalculatorWithHistory.add (PyInt 10) (PyInt 5) (instant 1 0) fresh_facade
    = (Returns (PyInt 15), self')
    ∧ last (History.operations (CalculatorWithHistory.history self'))
      = Some (logged "add" [PyInt 10; PyInt 5] (PyInt 15) (instant 1 0))
    ∧ fst (CalculatorWithHistory.get_history 1 self')
      = Returns [logged "add" [PyInt 10; PyInt 5] (PyInt 15) (instant 1 0)].
Proof.
  destruct (add_returns_and_logs_sum (PyInt 10) (PyInt 5) (PyInt 15)
              (instant 1 0) fresh_facade eq_refl)
    as (self' & Hrun & Hlast & Hrecent & _).
  - change (1 ≤ 100). lia.
  - exists self'. split; [exact Hrun|]. split; [exact Hlast|exact Hrecent].
Defined.

(** ** The log: capacity *)

Section Capacity.
Context {A : Type}.
Implicit Types l : list A.

Lemma keep_last_short (capacity : Z) l :
  Z.of_nat (length l) ≤ capacity → keep_last capacity l = l.
Proof.
  intros Hlen. unfold keep_last.
  replace (length l - Z.to_nat capacity)%nat with O by lia. done.
Qed.

Lemma keep_last_length (capacity : Z) l :
  0 ≤ capacity →
  Z.of_nat (length (keep_last capacity l)) = Z.min (Z.of_nat (length l)) capacity.
Proof. intros Hcap. unfold keep_last. rewrite length_drop. lia. Qed.

Lemma keep_last_snoc (capacity : Z) l (x : A) :
  0 ≤ capacity →
  keep_last capacity (keep_last capacity l ++ [x]) = keep_last capacity (l ++ [x]).
Proof.
  intros Hcap. unfold keep_last at 1 3.
  pose proof (keep_last_length capacity l Hcap) as Hlen.
  rewrite !length_app. simpl.
  destruct (decide (Z.of_nat (length l) ≤ capacity)) as [Hshort|Hlong].
  - by rewrite keep_last_short.
  - unfold keep_last in *. rewrite length_drop in *.
    destruct (decide (capacity = 0)) as [->|Hpos].
    + rewrite !drop_ge; [done|rewrite length_app; simpl; lia|].
      rewrite length_app, length_drop. simpl. lia.
    + rewrite drop_app_le by (rewrite length_drop; lia).
      rewrite drop_drop, drop_app_le by lia.
      do 2 f_equal. lia.
Qed.
End Capacity.

(** Appending keeps the last [max_size] of what has been logged: the new
    entry goes to the tail and, on a full log, the head one goes. *)
Lemma add_operation_keep_last name operands result now (self : History.t) :
  within_capacity self →
  History.operations (snd (History.add_operation name operands result now self))
  = keep_last (History.max_size self)
      (History.operations self ++ [logged name operands result now]).
Proof.
  unfold within_capacity, keep_last. intros Hin.
  rewrite add_operation_operations, length_app. simpl. case_decide.
  - replace (_ - _)%nat with O by lia. done.
  - f_equal. lia.
Qed.


(** Strict FIFO: on a full log exactly the head is dropped. *)
Lemma add_operation_evicts_oldest name operands result now (self : History.t) oldest rest :
  History.operations self = oldest :: rest →
  Z.of_nat (length (History.operations self)) = History.max_size self →
  History.operations (snd (History.add_operation name operands result now self))
  = rest ++ [logged name operands result now].
Proof.
  intros Hops Hfull. rewrite add_operation_operations.
  case_decide; [lia|]. by rewrite Hops.
Qed.


Section Runs.
Context `{FloatPow}.

Lemma perform_all_length (cs : list (call * Datetime.t)) :
  ∀ self answers self',
    perform_all cs self = (answers, self') → length answers = length cs.
Proof.
  induction cs as [|[c now] cs IH]; intros self answers self'; simpl.
  - by intros [= <- <-].
  - destruct (perform c now self) as [o self1].
    destruct (perform_all cs self1) as [os self2] eqn:Hrest.
    intros [= <- <-]. simpl. by rewrite (IH _ _ _ Hrest).
Qed.

(** Through any run of facade calls, the log is the last [max_size] of
    everything logged so far. *)
Lemma perform_all_log (cs : list (call * Datetime.t)) :
  ∀ self answers self' logged_so_far,
    0 ≤ History.max_size (CalculatorWithHistory.history self) →
    History.operations (CalculatorWithHistory.history self)
    = keep_last (History.max_size (CalculatorWithHistory.history self)) logged_so_far →
    perform_all cs self = (answers, self') →
    History.operations (CalculatorWithHistory.history self')
    = keep_last (History.max_size (CalculatorWithHistory.history self))
        (logged_so_far ++ records cs answers)
    ∧ History.max_size (CalculatorWithHistory.history self')
      = History.max_size (CalculatorWithHistory.history self).
Proof.
  induction cs as [|[c now] cs IH]; intros self answers self' sofar Hcap Hlog; simpl.
  - intros [= <- <-]. by rewrite app_nil_r.
  - rewrite perform_evaluate.
    destruct (evaluate c _) as [[r|e] calc];
      destruct (perform_all cs _) as [os self2] eqn:Hrest; intros [= <- <-].
    + apply (IH _ _ _ (sofar ++ [logged (call_name c) (call_operands c) r now]))
        in Hrest; simpl in *.
      * rewrite add_operation_max_size in Hrest.
        by rewrite <- app_assoc in Hrest.
      * by rewrite add_operation_max_size.
      * rewrite add_operation_max_size, add_operation_keep_last.
        -- by rewrite Hlog, keep_last_snoc.
        -- unfold within_capacity. rewrite Hlog, keep_last_length; lia.
    + by apply (IH _ _ _ sofar) in Hrest.
Qed.

Lemma records_length (cs : list (call * Datetime.t)) :
  ∀ answers,
    length answers = length cs → Forall (λ o, returned o = true) answers →
    length (records cs answers) = length cs.
Proof.
  induction cs as [|[c now] cs IH]; intros [|[r|e] answers] Hlen Hall;
    simpl in *; try done.
  - inversion Hall; subst. rewrite IH; [done|lia|done].
  - inversion Hall; subst. done.
Qed.

(** From an empty log, more successful operations than the capacity leave
    exactly [max_size] entries, and [recent(max_size)] lists the last
    [max_size] of them, most recent first. *)
Lemma full_log_after_many (cs : list (call * Datetime.t))
    (self self' : CalculatorWithHistory.t) (answers : list (outcome Number)) :
  History.operations (CalculatorWithHistory.history self) = [] →
  0 ≤ History.max_size (CalculatorWithHistory.history self) →
  perform_all cs self = (answers, self') →
  Forall (λ o, returned o = true) answers →
  History.max_size (CalculatorWithHistory.history self) < Z.of_nat (length cs) →
  fst (History.get_operation_count (CalculatorWithHistory.history self'))
  = Returns (History.max_size (CalculatorWithHistory.history self))
  ∧ fst (CalculatorWithHistory.get_history
           (History.max_size (CalculatorWithHistory.history self)) self')
    = Returns (take (Z.to_nat (History.max_size (CalculatorWithHistory.history self)))
                 (reverse (records cs answers))).
Proof.
  intros Hempty Hcap Hrun Hall Hmany.
  pose proof (perform_all_length _ _ _ _ Hrun) as Hlen.
  pose proof (records_length cs answers Hlen Hall) as Hrecs.
  destruct (perform_all_log cs self answers self' [] Hcap) as [Hops Hmax];
    [by rewrite Hempty| done |]. simpl in Hops.
  set (cap := History.max_size (CalculatorWithHistory.history self)) in *.
  assert (Hcount : Z.of_nat (length (History.operations
                     (CalculatorWithHistory.history self'))) = cap).
  { rewrite Hops, keep_last_length by done. lia. }
  split.
  - simpl. by rewrite Hcount.
  - unfold CalculatorWithHistory.get_history, CalculatorWithHistory.on_history,
      History.get_last_operations. run.
    destruct (Z.leb_spec cap 0) as [Hzero|Hpos]; simpl.
    + by replace cap with 0 by lia.
    + rewrite py_slice_from_last by done.
      replace (_ - _)%nat with O by lia. simpl.
      rewrite Hops. unfold keep_last. by rewrite take_reverse.
Qed.

End Runs.

(** The size test: ten additions on a log of capacity 5 leave the five
    latest, [10, 9, 8, 7, 6] from the most recent. *)
Lemma full_log_after_ten :
  fst (History.get_operation_count
         (CalculatorWithHistory.history
            (snd (@perform_all pow_out_of_range ten_calls small_facade))))
  = Returns 5
  ∧ ∃ recent,
      fst (CalculatorWithHistory.get_history 5
             (snd (@perform_all pow_out_of_range ten_calls small_facade)))
      = Returns recent
      ∧ History.result <$> recent = [PyInt 10; PyInt 9; PyInt 8; PyInt 7; PyInt 6].
Proof.
  destruct (@full_log_after_many pow_out_of_range ten_calls small_facade
              (snd (@perform_all pow_out_of_range ten_calls small_facade))
              (fst (@perform_all pow_out_of_range ten_calls small_facade))
              eq_refl) as [Hcount Hrecent].
  - done.
  - apply surjective_pairing.
  - vm_compute. repeat constructor.
  - by vm_compute.
  - split; [exact Hcount|]. eexists. split; [exact Hrecent|]. by vm_compute.
Qed.

(** C2 fails on the code.  [load_from_file] installs whatever the document
    holds: after loading 101 entries the log of a facade with capacity 100
    has 101 entries, and every later operation drops one entry and adds
    one, so it stays at 101. *)
Theorem load_from_file_exceeds_capacity :
  ∃ loaded later,
    CalculatorWithHistory.load_from_file false (fresh_facade, oversized_files)
    = (Returns true, (loaded, oversized_files))
    ∧ History.max_size (CalculatorWithHistory.history loaded) = 100
    ∧ fst (History.get_operation_count (CalculatorWithHistory.history loaded))
      = Returns 101
    ∧ CalculatorWithHistory.add (PyInt 1) (PyInt 2) (instant 3 0) loaded
      = (Returns (PyInt 3), later)
    ∧ fst (History.get_operation_count (CalculatorWithHistory.history later))
      = Returns 101.
Proof. do 2 eexists. vm_compute. repeat split. Qed.

(** ** Instants and their text *)

Module DatetimeFacts.
Import Datetime.

#[local] Arguments digit_char : simpl never.
#[local] Arguments digit_value : simpl never.

Lemma digit_value_char (d : Z) :
  0 ≤ d < 10 → digit_value (digit_char d) = Some d.
Proof.
  intros Hd.
  assert (d = 0 ∨ d = 1 ∨ d = 2 ∨ d = 3 ∨ d = 4 ∨ d = 5 ∨ d = 6 ∨ d = 7
          ∨ d = 8 ∨ d = 9) as Hcases by lia.
  repeat destruct Hcases as [->|Hcases]; try subst d; reflexivity.
Qed.

Lemma length_decimal (width : nat) : ∀ n, length (decimal width n) = width.
Proof.
  induction width as [|w IH]; intros n; simpl; [done|].
  rewrite length_app, IH. simpl. lia.
Qed.

#[local] Arguments decimal : simpl never.

Lemma parse_decimal_app (l1 l2 : list ascii) :
  ∀ acc, parse_decimal acc (l1 ++ l2)
         = parse_decimal acc l1 ≫= λ acc', parse_decimal acc' l2.
Proof.
  induction l1 as [|c l1 IH]; intros acc; simpl; [done|].
  destruct (digit_value c); simpl; [apply IH|done].
Qed.

Lemma parse_decimal_decimal (width : nat) :
  ∀ n acc, 0 ≤ n < 10 ^ Z.of_nat width →
    parse_decimal acc (decimal width n) = Some (acc * 10 ^ Z.of_nat width + n).
Proof.
  induction width as [|w IH]; intros n acc Hn.
  - change (decimal 0 n) with (@nil ascii). simpl in *. f_equal. lia.
  - rewrite Nat2Z.inj_succ, Z.pow_succ_r in * by lia.
    change (decimal (S w) n) with (decimal w (n / 10) ++ [digit_char (n mod 10)]).
    rewrite parse_decimal_app, IH
      by (split; [apply Z.div_pos|apply Z.div_lt_upper_bound]; lia).
    cbn [mbind option_bind parse_decimal].
    rewrite digit_value_char by (apply Z.mod_pos_bound; lia).
    cbn [mbind option_bind]. f_equal.
    pose proof (Z.div_mod n 10 ltac:(lia)). lia.
Qed.

Lemma field_decimal (width : nat) (n : Z) (rest : list ascii) :
  0 ≤ n < 10 ^ Z.of_nat width →
  field width (decimal width n ++ rest) = Some (n, rest).
Proof.
  intros Hn. unfold field.
  rewrite length_app, length_decimal. case_decide; [|lia].
  rewrite take_app_length', drop_app_length' by (by rewrite length_decimal).
  rewrite parse_decimal_decimal by done. cbn [mbind option_bind].
  do 2 f_equal; lia.
Qed.

Lemma valid_ranges (d : t) :
  valid d = true →
  0 ≤ year d < 10 ^ Z.of_nat 4 ∧ 0 ≤ month d < 10 ^ Z.of_nat 2
  ∧ 0 ≤ day d < 10 ^ Z.of_nat 2 ∧ 0 ≤ hour d < 10 ^ Z.of_nat 2
  ∧ 0 ≤ minute d < 10 ^ Z.of_nat 2 ∧ 0 ≤ second d < 10 ^ Z.of_nat 2
  ∧ 0 ≤ microsecond d < 10 ^ Z.of_nat 6.
Proof.
  unfold valid, between. rewrite !andb_true_iff, !Z.leb_le.
  intros [[[[[[[? ?] [? ?]] [? Hday]] [? ?]] [? ?]] [? ?]] [? ?]].
  assert (days_in_month (year d) (month d) ≤ 31).
  { unfold days_in_month. repeat case_match; lia. }
  change (10 ^ Z.of_nat 4) with 10000. change (10 ^ Z.of_nat 2) with 100.
  change (10 ^ Z.of_nat 6) with 1000000. lia.
Qed.

(** Reading back what [isoformat] wrote gives the same instant, to the
    microsecond. *)
Lemma parse_isoformat_chars (d : t) :
  valid d = true → parse_chars (isoformat_chars d) = Some d.
Proof.
  intros Hvalid.
  destruct (valid_ranges d Hvalid) as (Hy & Hmo & Hd & Hh & Hmi & Hs & Hus).
  unfold parse_chars, isoformat_chars.
  repeat first
    [ progress cbn [mbind option_bind expect app]
    | rewrite field_decimal by done
    | rewrite decide_True by done ].
  assert (fraction (if microsecond d =? 0 then []
                    else "."%char :: decimal 6 (microsecond d))
          = Some (microsecond d)) as ->.
  { destruct (Z.eqb_spec (microsecond d) 0) as [->|Hne]; [done|].
    unfold fraction. rewrite decide_True by done.
    rewrite <- (app_nil_r (decimal 6 _)), field_decimal by done.
    cbn [mbind option_bind]. by rewrite decide_True. }
  cbn [mbind option_bind]. destruct d; cbn [year month day hour minute second microsecond] in *.
  by rewrite Hvalid.
Qed.

Lemma fromisoformat_isoformat (d : t) :
  valid d = true → fromisoformat (isoformat d) = Returns d.
Proof.
  intros Hvalid. unfold fromisoformat, isoformat.
  rewrite String.list_ascii_of_string_of_list_ascii.
  by rewrite parse_isoformat_chars.
Qed.

End DatetimeFacts.

(** ** Persistence *)

Lemma restore_serializable (op : History.entry) :
  is_record op →
  HistoryPersistence.restore (HistoryPersistence.serializable op) = Returns op.
Proof.
  intros (d & Hts & Hvalid).
  unfold HistoryPersistence.serializable, HistoryPersistence.restore.
  rewrite Hts. cbn [History.timestamp HistoryPersistence.set_timestamp].
  rewrite DatetimeFacts.fromisoformat_isoformat by done.
  destruct op; cbn in *. by rewrite Hts.
Qed.

Lemma restore_all_serializable (ops : list History.entry) :
  Forall is_record ops →
  HistoryPersistence.restore_all (HistoryPersistence.serializable <$> ops)
  = Returns ops.
Proof.
  induction 1 as [|op ops Hop _ IH]; [done|].
  rewrite fmap_cons. cbn [HistoryPersistence.restore_all].
  by rewrite restore_serializable, IH.
Qed.

(** C3. Loading right after a save that succeeded gives back the sequence
    that was saved: tag, operands and result of every record are the
    same, and so is the timestamp, whose text keeps every microsecond. *)
Theorem load_after_save_roundtrip (p : HistoryPersistence.t)
    (R : list History.entry) (fault : write_fault) (fs fs' : filesystem) :
  Forall is_record R →
  HistoryPersistence.save_history p R fault fs = (Returns true, fs') →
  HistoryPersistence.load_history p false fs' = (Returns R, fs').
Proof.
  intros Hrecords Hsave. unfold HistoryPersistence.save_history in Hsave.
  destruct fault; try discriminate. injection Hsave as <-.
  unfold HistoryPersistence.load_history. rewrite lookup_insert_eq.
  by rewrite restore_all_serializable.
Qed.

Lemma load_after_save_roundtrip_witness :
  HistoryPersistence.load_history (HistoryPersistence.init "history.json") false
    (snd (HistoryPersistence.save_history (HistoryPersistence.init "history.json")
            sample_ops WriteSucceeds ∅))
  = (Returns sample_ops,
     snd (HistoryPersistence.save_history (HistoryPersistence.init "history.json")
            sample_ops WriteSucceeds ∅)).
Proof.
  apply (load_after_save_roundtrip (HistoryPersistence.init "history.json")
           sample_ops WriteSucceeds ∅).
  - repeat constructor; eexists; (split; reflexivity).
  - reflexivity.
Defined.

(** C9. With a persistence file configured: when loading yields nothing
    (no file, a file that cannot be read, text that does not parse, an empty
    array), [load_from_file()] answers [False] and the facade is untouched;
    it answers [True], with the loaded entries as the whole history, exactly
    when loading yields at least one entry. *)
Theorem load_from_file_replaces_or_keeps (p : HistoryPersistence.t)
    (self : CalculatorWithHistory.t) (read_fails : bool) (fs : filesystem) :
  CalculatorWithHistory.persistence self = Some p →
  ((fs !! HistoryPersistence.file_path p = None
    ∨ read_fails = true
    ∨ fs !! HistoryPersistence.file_path p = Some Malformed
    ∨ fs !! HistoryPersistence.file_path p = Some (JsonArray [])) →
   HistoryPersistence.load_history p read_fails fs = (Returns [], fs))
  ∧ (HistoryPersistence.load_history p read_fails fs = (Returns [], fs) →
     CalculatorWithHistory.load_from_file read_fails (self, fs)
     = (Returns false, (self, fs)))
  ∧ (∀ op ops,
       HistoryPersistence.load_history p read_fails fs = (Returns (op :: ops), fs) →
       CalculatorWithHistory.load_from_file read_fails (self, fs)
       = (Returns true,
          ({| CalculatorWithHistory.calculator := CalculatorWithHistory.calculator self;
              CalculatorWithHistory.history :=
                {| History.max_size :=
                     History.max_size (CalculatorWithHistory.history self);
                   History.operations := op :: ops |};
              CalculatorWithHistory.persistence :=
                CalculatorWithHistory.persistence self |}, fs)))
  ∧ (∀ w, CalculatorWithHistory.load_from_file read_fails (self, fs)
          = (Returns true, w) →
       ∃ op ops,
         HistoryPersistence.load_history p read_fails fs = (Returns (op :: ops), fs)
         ∧ History.operations (CalculatorWithHistory.history (fst w)) = op :: ops).
Proof.
  intros Hp. split; [|split; [|split]].
  - unfold HistoryPersistence.load_history.
    intros [Hnone | [Hfails | [Hbad | Hempty]]].
    + by rewrite Hnone.
    + subst read_fails. by destruct (fs !! HistoryPersistence.file_path p).
    + rewrite Hbad. by destruct read_fails.
    + rewrite Hempty. by destruct read_fails.
  - intros Hload.
    unfold CalculatorWithHistory.load_from_file, CalculatorWithHistory.on_self,
      CalculatorWithHistory.on_files. run. rewrite Hp. simpl.
    rewrite Hload. simpl. by destruct self.
  - intros op ops Hload.
    unfold CalculatorWithHistory.load_from_file, CalculatorWithHistory.on_self,
      CalculatorWithHistory.on_files. run. rewrite Hp. simpl.
    rewrite Hload. simpl.
    unfold CalculatorWithHistory.set_history, History.set_operations. simpl.
    by rewrite Hp.
  - intros w.
    unfold CalculatorWithHistory.load_from_file, CalculatorWithHistory.on_self,
      CalculatorWithHistory.on_files. run. rewrite Hp. simpl.
    assert (snd (HistoryPersistence.load_history p read_fails fs) = fs) as Hfs.
    { unfold HistoryPersistence.load_history. by repeat case_match. }
    destruct (HistoryPersistence.load_history p read_fails fs)
      as [[[|op ops]|e] fs'] eqn:Hload; simpl in *; subst fs'; try discriminate.
    intros [= <-]. by exists op, ops.
Qed.

Lemma load_from_file_replaces_or_keeps_witness :
  CalculatorWithHistory.load_from_file false (fresh_facade, ∅)
  = (Returns false, (fresh_facade, ∅))
  ∧ CalculatorWithHistory.load_from_file false (fresh_facade, sample_files)
    = (Returns true,
       ({| CalculatorWithHistory.calculator := Calculator.init;
           CalculatorWithHistory.history :=
             {| History.max_size := 100; History.operations := sample_ops |};
           CalculatorWithHistory.persistence :=
             Some (HistoryPersistence.init "history.json") |}, sample_files)).
Proof.
  split.
  - destruct (load_from_file_replaces_or_keeps
                (HistoryPersistence.init "history.json") fresh_facade false ∅ eq_refl)
      as (Hempty & Hkeeps & _).
    apply Hkeeps, Hempty. left. reflexivity.
  - destruct (load_from_file_replaces_or_keeps
                (HistoryPersistence.init "history.json") fresh_facade false
                sample_files eq_refl)
      as (_ & _ & Hreplaces & _).
    apply (Hreplaces _ _ eq_refl).
Defined.

(** ** The order on numbers *)

Lemma elem_of_cons_skip {A} (x first item : A) (rest : list A) :
  x ∈ first :: rest → x ∈ first :: item :: rest.
Proof.
  intros [->|Hin]%elem_of_cons; [apply list_elem_of_here|].
  by do 2 apply list_elem_of_further.
Qed.

Lemma extended_compare_le (u v : extended) :
  extended_compare u v ≠ Gt ↔ extended_le u v.
Proof.
  destruct u, v; simpl; try (split; [done|discriminate]); try tauto.
  symmetry. apply Qle_alt.
Qed.

Lemma extended_le_trans (u v w : extended) :
  extended_le u v → extended_le v w → extended_le u w.
Proof. destruct u, v, w; simpl; try done. apply Qle_trans. Qed.

Lemma extended_le_total (u v : extended) : extended_le u v ∨ extended_le v u.
Proof.
  destruct u, v; simpl; auto.
  destruct (Qlt_le_dec q q0); [left; by apply Qlt_le_weak|by right].
Qed.

Lemma ordered_value (x : Number) : ordered x = true → ∃ u, number_value x = Some u.
Proof. destruct x as [z|[]]; simpl; try done; eauto. Qed.

Lemma py_le_extended (x y : Number) u v :
  number_value x = Some u → number_value y = Some v →
  py_le x y = true ↔ extended_le u v.
Proof.
  intros Hx Hy. unfold py_le, py_compare. rewrite Hx, Hy.
  rewrite <- extended_compare_le. by destruct (extended_compare u v).
Qed.

Lemma py_le_refl (x : Number) : ordered x = true → py_le x x = true.
Proof.
  intros [u Hu]%ordered_value. rewrite (py_le_extended x x u u) by done.
  destruct (extended_le_total u u); done.
Qed.

Lemma py_le_trans (x y z : Number) :
  py_le x y = true → py_le y z = true → py_le x z = true.
Proof.
  unfold py_le, py_compare.
  destruct (number_value x) as [u|] eqn:Hx; [|done].
  destruct (number_value y) as [v|] eqn:Hy; [|done].
  destruct (number_value z) as [w|] eqn:Hz; [|by destruct (extended_compare u v)].
  intros Huv Hvw.
  assert (extended_le u v) by (apply extended_compare_le; by destruct (extended_compare u v)).
  assert (extended_le v w) by (apply extended_compare_le; by destruct (extended_compare v w)).
  assert (extended_compare u w ≠ Gt) as Hle
    by (apply extended_compare_le; by eapply extended_le_trans).
  by destruct (extended_compare u w).
Qed.

(** On ordered numbers, [>] and [<] are the strict sides of [<=]. *)
Lemma py_gt_le (x y : Number) :
  ordered x = true → ordered y = true →
  if py_gt x y then py_le y x = true else py_le x y = true.
Proof.
  intros [u Hu]%ordered_value [v Hv]%ordered_value.
  unfold py_gt, py_le, py_compare. rewrite Hu, Hv.
  destruct (extended_compare u v) eqn:Hc; try done.
  assert (extended_compare v u ≠ Gt) as Hle.
  { apply extended_compare_le.
    destruct (extended_le_total v u) as [|Huv]; [done|].
    apply extended_compare_le in Huv. done. }
  by destruct (extended_compare v u).
Qed.

Lemma py_lt_le (x y : Number) :
  ordered x = true → ordered y = true →
  if py_lt x y then py_le x y = true else py_le y x = true.
Proof.
  intros [u Hu]%ordered_value [v Hv]%ordered_value.
  unfold py_lt, py_le, py_compare. rewrite Hu, Hv.
  destruct (extended_compare u v) eqn:Hc; try done.
  - assert (extended_compare v u ≠ Gt) as Hle.
    { apply extended_compare_le.
      destruct (extended_le_total v u) as [|Huv]; [done|].
      destruct u, v; simpl in *; try done.
      apply Qeq_alt in Hc. rewrite Hc. apply Qle_refl. }
    by destruct (extended_compare v u).
  - assert (extended_compare v u ≠ Gt) as Hle.
    { apply extended_compare_le.
      destruct (extended_le_total v u) as [|Huv]; [done|].
      apply extended_compare_le in Huv. done. }
    by destruct (extended_compare v u).
Qed.

(** [max] and [min] of ordered numbers are an upper and a lower bound
    taken from the list. *)
Lemma py_max_greatest (rest : list Number) :
  ∀ first, Forall (λ x, ordered x = true) (first :: rest) →
    py_max first rest ∈ first :: rest
    ∧ Forall (λ x, py_le x (py_max first rest) = true) (first :: rest).
Proof.
  induction rest as [|item rest IH]; intros first Hord.
  - simpl. split; [apply list_elem_of_here|]. constructor; [|done].
    apply py_le_refl. by inversion Hord.
  - inversion Hord as [|? ? Hfirst Hrest]; subst.
    inversion Hrest as [|? ? Hitem Hrest']; subst.
    unfold py_max. simpl. fold (py_max (if py_gt item first then item else first) rest).
    pose proof (py_gt_le item first Hitem Hfirst) as Hcmp.
    destruct (py_gt item first).
    + destruct (IH item) as [Hin Hall]; [by constructor|].
      split; [by apply list_elem_of_further|]. inversion Hall; subst.
      constructor; [by eapply py_le_trans|by constructor].
    + destruct (IH first) as [Hin Hall]; [by constructor|].
      split; [by apply elem_of_cons_skip|]. inversion Hall; subst.
      constructor; [done|]. constructor; [by eapply py_le_trans|done].
Qed.

Lemma py_min_least (rest : list Number) :
  ∀ first, Forall (λ x, ordered x = true) (first :: rest) →
    py_min first rest ∈ first :: rest
    ∧ Forall (λ x, py_le (py_min first rest) x = true) (first :: rest).
Proof.
  induction rest as [|item rest IH]; intros first Hord.
  - simpl. split; [apply list_elem_of_here|]. constructor; [|done].
    apply py_le_refl. by inversion Hord.
  - inversion Hord as [|? ? Hfirst Hrest]; subst.
    inversion Hrest as [|? ? Hitem Hrest']; subst.
    unfold py_min. simpl. fold (py_min (if py_lt item first then item else first) rest).
    pose proof (py_lt_le item first Hitem Hfirst) as Hcmp.
    destruct (py_lt item first).
    + destruct (IH item) as [Hin Hall]; [by constructor|].
      split; [by apply list_elem_of_further|]. inversion Hall; subst.
      constructor; [by eapply py_le_trans|by constructor].
    + destruct (IH first) as [Hin Hall]; [by constructor|].
      split; [by apply elem_of_cons_skip|]. inversion Hall; subst.
      constructor; [done|]. constructor; [by eapply py_le_trans|done].
Qed.

(** ** Statistics *)

Lemma foldl_tally (ops : list History.entry) :
  ∀ (types : gmap string Z) (results : list Number),
    ∃ types',
      foldl History.tally (types, results) ops
      = (types', results ++ (History.result <$> ops))
      ∧ ∀ name,
          types' !! name =
          match occurrences name ops with
          | O => types !! name
          | S n => Some (default 0 (types !! name) + Z.of_nat (S n))
          end.
Proof.
  induction ops as [|op ops IH]; intros types results.
  - exists types. simpl. by rewrite app_nil_r.
  - simpl.
    destruct (IH (<[History.operation op :=
                      default 0 (types !! History.operation op) + 1]> types)
                 (results ++ [History.result op])) as (types' & Hfold & Htypes).
    exists types'. split.
    + rewrite Hfold. by rewrite <- app_assoc.
    + intros name. rewrite Htypes. case_decide as Hname.
      * subst name. rewrite lookup_insert_eq. simpl.
        destruct (occurrences _ ops); f_equal; lia.
      * by rewrite lookup_insert_ne.
Qed.

Lemma py_sum_ints (zs : list Z) :
  py_sum (PyInt <$> zs) = Returns (PyInt (foldr Z.add 0 zs)).
Proof.
  unfold py_sum.
  assert (∀ acc, foldl (λ acc x, a ← acc; py_add a x) (Returns (PyInt acc))
                   (PyInt <$> zs)
                 = Returns (PyInt (acc + foldr Z.add 0 zs))) as Hgen.
  { induction zs as [|z zs IH]; intros acc; simpl.
    - f_equal. f_equal. lia.
    - rewrite IH. do 2 f_equal. lia. }
  apply Hgen.
Qed.

(** C7, as the code has it.  [get_statistics] reads the log and leaves it
    alone.  On an empty log it answers total 0, no tags and no average,
    maximum or minimum.  On any other log it evaluates
    [sum(results) / len(results)] with Python's [+] and [/]: when that
    raises (a result or the quotient is an int beyond the range of a
    double) the call raises; otherwise the total is the number of entries,
    each tag is mapped to the number of its entries, the average is that
    quotient, and the maximum and minimum are what [max] and [min] answer,
    which are a greatest and a least result whenever no result is NaN.  A
    sum of ints is exact. *)
Theorem statistics_of_log (self : History.t) :
  snd (History.get_statistics self) = self
  ∧ (∀ other, History.operations other = History.operations self →
       fst (History.get_statistics other) = fst (History.get_statistics self))
  ∧ (History.operations self = [] →
     fst (History.get_statistics self)
     = Returns {| History.total_operations := 0;
                  History.operation_types := ∅;
                  History.average_result := None;
                  History.max_result := None;
                  History.min_result := None |})
  ∧ (∀ first rest,
       History.result <$> History.operations self = first :: rest →
       match total ← py_sum (first :: rest) ;
             py_truediv total (PyInt (Z.of_nat (length (first :: rest)))) with
       | Raises e => fst (History.get_statistics self) = Raises e
       | Returns average =>
           ∃ stats,
             fst (History.get_statistics self) = Returns stats
             ∧ History.total_operations stats
               = Z.of_nat (length (History.operations self))
             ∧ (∀ name, History.operation_types stats !! name
                        = tag_count name (History.operations self))
             ∧ History.average_result stats = Some average
             ∧ History.max_result stats = Some (py_max first rest)
             ∧ History.min_result stats = Some (py_min first rest)
             ∧ (Forall (λ x, ordered x = true) (first :: rest) →
                py_max first rest ∈ first :: rest
                ∧ Forall (λ x, py_le x (py_max first rest) = true) (first :: rest)
                ∧ py_min first rest ∈ first :: rest
                ∧ Forall (λ x, py_le (py_min first rest) x = true) (first :: rest))
       end)
  ∧ (∀ zs, py_sum (PyInt <$> zs) = Returns (PyInt (foldr Z.add 0 zs))).
Proof.
  split; [|split; [|split; [|split]]].
  - unfold History.get_statistics. by repeat case_match.
  - intros other Hsame. unfold History.get_statistics. rewrite Hsame.
    by repeat case_match.
  - intros Hempty. unfold History.get_statistics. by rewrite Hempty.
  - intros first rest Hresults. unfold History.get_statistics.
    destruct (History.operations self) as [|op ops] eqn:Hops; [done|].
    destruct (foldl_tally (op :: ops) ∅ []) as (types & Hfold & Htypes).
    rewrite Hfold, app_nil_l, Hresults.
    destruct (py_sum (first :: rest) ≫= _) as [average|e]; [|done].
    eexists. split; [reflexivity|]. simpl.
    split; [done|]. split.
    { intros name. rewrite Htypes, lookup_empty. unfold tag_count.
      destruct (occurrences name (op :: ops)); [done|]. simpl. f_equal; lia. }
    split; [done|]. split; [done|]. split; [done|].
    intros Hord.
    destruct (py_max_greatest rest first Hord) as [? ?].
    destruct (py_min_least rest first Hord) as [? ?]. done.
  - apply py_sum_ints.
Qed.

Lemma statistics_of_log_witness :
  fst (History.get_statistics (History.init 100))
  = Returns {| History.total_operations := 0;
               History.operation_types := ∅;
               History.average_result := None;
               History.max_result := None;
               History.min_result := None |}
  ∧ ∃ stats,
      fst (History.get_statistics statistics_log) = Returns stats
      ∧ History.total_operations stats = 6
      ∧ History.operation_types stats !! "add" = Some 2
      ∧ History.operation_types stats !! "divide" = None
      ∧ History.average_result stats = Some mean_of_statistics_log
      ∧ History.max_result stats = Some (PyInt 45)
      ∧ History.min_result stats
        = Some (PyFloat (S754_finite false 4503599627370496 (-50)))
      ∧ Forall (λ x, py_le x (PyInt 45) = true)
          (History.result <$> History.operations statistics_log).
Proof.
  split.
  - destruct (statistics_of_log (History.init 100)) as (_ & _ & Hempty & _).
    apply Hempty. reflexivity.
  - destruct (statistics_of_log statistics_log) as (_ & _ & _ & Hstats & _).
    specialize (Hstats _ _ eq_refl).
    destruct Hstats
      as (stats & Hrun & Htotal & Htypes & Havg & Hmax & Hmin & Hbounds).
    destruct Hbounds as (_ & Hgreatest & _ & _).
    { repeat constructor. }
    exists stats. split; [exact Hrun|]. split; [exact Htotal|].
    split; [exact (Htypes "add")|]. split; [exact (Htypes "divide")|].
    split; [exact Havg|]. split; [exact Hmax|]. split; [exact Hmin|].
    exact Hgreatest.
Defined.

(** C7 as stated fails: after [multiply(10**200, 10**200)] the log holds
    one result and [get_statistics()] raises instead of answering; and
    after [add(inf, -inf)], [add(1.0, 1.0)] the maximum it reports is the
    NaN, which is not above the other result. *)
Lemma statistics_counterexample :
  History.operations (CalculatorWithHistory.history facade_with_huge_result)
  = [logged "multiply" [PyInt (10 ^ 200); PyInt (10 ^ 200)] (PyInt (10 ^ 400))
       (instant 1 0)]
  ∧ fst (CalculatorWithHistory.get_statistics facade_with_huge_result)
    = Raises (OverflowError "integer division result too large for a float")
  ∧ ∃ stats,
      fst (CalculatorWithHistory.get_statistics facade_with_nan_result)
      = Returns stats
      ∧ History.result <$> History.operations
          (CalculatorWithHistory.history facade_with_nan_result) = [nan; two]
      ∧ History.max_result stats = Some nan
      ∧ py_le two nan = false.
Proof.
  split; [by vm_compute|]. split; [by vm_compute|].
  eexists. split; [vm_compute; reflexivity|]. by vm_compute.
Qed.

(** ** Rounding to a double *)

Module Float64Facts.
Import Float64.

(** Rounding keeps the sign it is given. *)
Lemma binary_round_aux_sign (sx : bool) (mx ex : Z) (lx : location) :
  match binary_round_aux prec emax sx mx ex lx with
  | S754_zero s | S754_infinity s | S754_finite s _ _ => s = sx
  | S754_nan => True
  end.
Proof.
  unfold binary_round_aux.
  destruct (shr_fexp _ _ mx ex lx) as [mrs' e'].
  destruct (shr_fexp _ _ _ e' loc_Exact) as [mrs'' e''].
  destruct (shr_m mrs''); [done| |done]. by destruct (_ <=? _).
Qed.

Lemma shr_1_m (mrs : shr_record) :
  0 ≤ shr_m mrs → shr_m (shr_1 mrs) = shr_m mrs / 2.
Proof.
  destruct mrs as [m r s]. cbn [shr_m]. intros Hm.
  rewrite <- Z.div2_div. by destruct m as [|[p|p|]|p].
Qed.

Lemma iter_pos_shr_1 (p : positive) :
  ∀ mrs, 0 ≤ shr_m mrs →
    shr_m (SpecFloat.iter_pos shr_1 p mrs) = shr_m mrs / 2 ^ Z.pos p.
Proof.
  induction p as [p IH|p IH|]; intros mrs Hm; cbn [SpecFloat.iter_pos].
  - assert (0 ≤ shr_m (shr_1 mrs)) as H1
      by (rewrite shr_1_m by done; apply Z.div_pos; lia).
    assert (0 ≤ shr_m (SpecFloat.iter_pos shr_1 p (shr_1 mrs))) as H2
      by (rewrite IH by done; apply Z.div_pos; lia).
    rewrite IH, IH, shr_1_m by done.
    rewrite !Z.div_div by lia. f_equal.
    replace (Z.pos p~1) with (1 + Z.pos p + Z.pos p) by lia.
    rewrite !Z.pow_add_r by lia. lia.
  - assert (0 ≤ shr_m (SpecFloat.iter_pos shr_1 p mrs)) as H1
      by (rewrite IH by done; apply Z.div_pos; lia).
    rewrite IH, IH by done. rewrite Z.div_div by lia. f_equal.
    replace (Z.pos p~0) with (Z.pos p + Z.pos p) by lia.
    by rewrite Z.pow_add_r by lia.
  - by apply shr_1_m.
Qed.

Lemma digits2_pos_lower (p : positive) : 2 ^ (Z.pos (digits2_pos p) - 1) ≤ Z.pos p.
Proof.
  induction p as [p IH|p IH|]; cbn [digits2_pos]; [| |done].
  all: rewrite Pos2Z.inj_succ;
    replace (Z.succ (Z.pos (digits2_pos p)) - 1)
      with (Z.succ (Z.pos (digits2_pos p) - 1)) by lia;
    rewrite Z.pow_succ_r by lia; lia.
Qed.

(** Shifting to the format's exponent leaves a positive mantissa
    positive, and does not lower the exponent. *)
Lemma shr_fexp_positive (m e : Z) (l : location) :
  0 < m → emin prec emax ≤ e →
  0 < shr_m (fst (shr_fexp prec emax m e l))
  ∧ emin prec emax ≤ snd (shr_fexp prec emax m e l).
Proof.
  intros Hm He. unfold shr_fexp, shr.
  assert (shr_m (shr_record_of_loc m l) = m) as Hrec by (by destruct l as [|[]]).
  destruct m as [|p|p]; try lia. cbn [Zdigits2].
  destruct (fexp prec emax (Z.pos (digits2_pos p) + e) - e) as [|n|n] eqn:Hn;
    cbn [fst snd]; rewrite ?Hrec; try (split; lia).
  rewrite iter_pos_shr_1 by (rewrite Hrec; lia). rewrite Hrec.
  split; [|lia]. apply Z.div_str_pos. split; [by apply Z.pow_pos_nonneg|].
  etrans; [|apply digits2_pos_lower]. apply Z.pow_le_mono_r; [lia|].
  unfold fexp, emin, prec, emax in *. lia.
Qed.

Lemma binary_round_aux_nonzero (sx : bool) (m e : Z) (l : location) :
  0 < m → emin prec emax ≤ e →
  is_zero (binary_round_aux prec emax sx m e l) = false.
Proof.
  intros Hm He. unfold binary_round_aux.
  destruct (shr_fexp_positive m e l Hm He) as [Hm1 He1].
  destruct (shr_fexp prec emax m e l) as [mrs' e']. cbn [fst snd] in *.
  set (m2 := round_nearest_even (shr_m mrs') (loc_of_shr_record mrs')).
  assert (0 < m2) as Hm2.
  { unfold m2, round_nearest_even.
    destruct (loc_of_shr_record mrs') as [|[]]; try lia. case_match; lia. }
  destruct (shr_fexp_positive m2 e' loc_Exact Hm2 He1) as [Hm3 _].
  destruct (shr_fexp prec emax m2 e' loc_Exact) as [mrs'' e'']. cbn [fst] in *.
  destruct (shr_m mrs''); [lia| |lia]. by destruct (_ <=? _).
Qed.

(** A non-zero int converts to a non-zero double. *)
Lemma of_scaled_nonzero (z : Z) : z ≠ 0 → is_zero (of_scaled z 0) = false.
Proof.
  intros Hz. unfold of_scaled, binary_normalize.
  destruct z as [|m|m]; [done| |]; unfold binary_round, shl_align.
  all: destruct (fexp prec emax (Z.pos (digits2_pos m) + 0) - 0) as [|n|n] eqn:Hn;
    apply binary_round_aux_nonzero; try lia;
    unfold fexp, emin, prec, emax in *; lia.
Qed.

End Float64Facts.

(** ** Validation in the evaluator *)

Lemma float_of_int_sign (z : Z) (f : spec_float) :
  0 ≤ z → float_of_int z = Returns f →
  match f with
  | S754_infinity _ | S754_finite true _ _ => False
  | _ => True
  end.
Proof.
  unfold float_of_int, Float64.of_scaled, binary_normalize. intros Hz.
  destruct z as [|m|m]; [by intros [= <-]| |lia].
  unfold binary_round. destruct (shl_align _ _ _) as [mz ez].
  pose proof (Float64Facts.binary_round_aux_sign false (Z.pos mz) ez loc_Exact)
    as Hsign.
  destruct (binary_round_aux _ _ _ _ _ _) as [s|s| |s ? ?];
    try discriminate; intros [= <-]; by subst.
Qed.

Lemma float_of_int_nonzero (z : Z) (f : spec_float) :
  z ≠ 0 → float_of_int z = Returns f → Float64.is_zero f = false.
Proof.
  intros Hz. unfold float_of_int.
  pose proof (Float64Facts.of_scaled_nonzero z Hz) as Hnz.
  destruct (Float64.of_scaled z 0); try discriminate; by intros [= <-].
Qed.

Lemma to_float_raises (x : Number) (e : exn) :
  to_float x = Raises e → e = OverflowError "int too large to convert to float".
Proof.
  destruct x as [z|f]; cbn [to_float]; [|done].
  unfold float_of_int. destruct (Float64.of_scaled z 0); by intros [=].
Qed.

Lemma float_binop_raises op (x y : Number) (e : exn) :
  float_binop op x y = Raises e →
  e = OverflowError "int too large to convert to float".
Proof.
  unfold float_binop. run.
  destruct (to_float x) eqn:Hx; [|intros [= <-]; by eapply to_float_raises].
  destruct (to_float y) eqn:Hy; [done|intros [= <-]; by eapply to_float_raises].
Qed.

Lemma py_lt_zero_float (f : spec_float) :
  py_lt (PyFloat f) (PyInt 0)
  = match f with
    | S754_finite true _ _ | S754_infinity true => true
    | _ => false
    end.
Proof. destruct f as [s|[]| |[] m e]; try done; by destruct e. Qed.

Lemma py_lt_zero_int (z : Z) : py_lt (PyInt z) (PyInt 0) = (z <? 0).
Proof.
  unfold py_lt, py_compare. cbn [number_value extended_compare].
  unfold Qcompare. cbn [Qnum Qden]. rewrite Z.mul_1_r. change (0 * 1) with 0.
  unfold Z.ltb. by destruct (z ?= 0).
Qed.

Lemma py_eq_zero_float (f : spec_float) :
  py_eq (PyFloat f) (PyInt 0) = Float64.is_zero f.
Proof. destruct f as [s|[]| |[] m e]; try done; by destruct e. Qed.

Lemma py_eq_zero_int (z : Z) : py_eq (PyInt z) (PyInt 0) = (z =? 0).
Proof.
  unfold py_eq, py_compare. cbn [number_value extended_compare].
  unfold Qcompare. cbn [Qnum Qden]. rewrite Z.mul_1_r. change (0 * 1) with 0.
  destruct (Z.eqb_spec z 0) as [->|Hne]; [done|].
  destruct (Z.compare_spec z 0); try done; lia.
Qed.

(** Past the guard of [square_root], [math.sqrt] has no domain error left. *)
Lemma math_sqrt_past_guard (x : Number) (msg : string) :
  py_lt x (PyInt 0) = false → math_sqrt x ≠ Raises (ValueError msg).
Proof.
  intros Hguard. unfold math_sqrt. run. destruct x as [z|f]; cbn [to_float].
  - rewrite py_lt_zero_int in Hguard.
    destruct (float_of_int z) as [f|e] eqn:Hf.
    + pose proof (float_of_int_sign z f ltac:(lia) Hf).
      by destruct f as [|[]| |[]].
    + apply to_float_raises with (x := PyInt z) in Hf. by subst.
  - rewrite py_lt_zero_float in Hguard. by destruct f as [|[]| |[]].
Qed.

(** Past the guard of [divide], [/] does not meet a zero divisor. *)
Lemma py_truediv_past_guard (x y : Number) (msg : string) :
  py_eq y (PyInt 0) = false → py_truediv x y ≠ Raises (ZeroDivisionError msg).
Proof.
  intros Hguard.
  assert (∀ fy, to_float y = Returns fy → Float64.is_zero fy = false) as Hnonzero.
  { destruct y as [z|f]; cbn [to_float].
    - rewrite py_eq_zero_int in Hguard. intros fy.
      apply float_of_int_nonzero. lia.
    - rewrite py_eq_zero_float in Hguard. by intros fy [= <-]. }
  assert (∀ e, to_float x = Raises e → e ≠ ZeroDivisionError msg) as Hx
    by (by intros e ->%to_float_raises).
  assert (∀ e, to_float y = Raises e → e ≠ ZeroDivisionError msg) as Hy
    by (by intros e ->%to_float_raises).
  unfold py_truediv.
  destruct x as [a|fx], y as [b|fy]; run.
  - rewrite py_eq_zero_int in Hguard. rewrite Hguard.
    unfold int_true_divide. destruct a; [done| |];
      destruct (SFdiv_core_binary _ _ _ _ _ _) as [[q e] l];
      by destruct (binary_round_aux _ _ _ _ _ _).
  - destruct (float_of_int a) as [fa|e] eqn:Ha.
    + by rewrite (Hnonzero fy eq_refl).
    + intros [= ->]. by eapply Hx.
  - destruct (float_of_int b) as [fb|e] eqn:Hb.
    + by rewrite (Hnonzero fb eq_refl).
    + intros [= ->]. by eapply Hy.
  - by rewrite (Hnonzero fy eq_refl).
Qed.

Section Validation.
Context `{FloatPow}.

(** [power] returns exactly when nothing is violated. *)
Lemma power_returns (base exponent r : Number) (self : Calculator.t) :
  fst (Calculator.power base exponent self) = Returns r
  ↔ py_lt base (PyInt 0) && negb (isinstance_int exponent) = false
    ∧ py_pow base exponent = Returns r
    ∧ ∃ f, to_float r = Returns f
           ∧ Float64.is_nan f = false ∧ Float64.is_inf f = false.
Proof.
  unfold Calculator.power, except_OverflowError, math_isnan, math_isinf. run.
  assert (∀ P : Prop, (P → False) → ∀ e, Raises e = Returns r ↔ P) as Hraises
    by (intros P HP e; split; [done|by intros ?%HP]).
  destruct (py_lt base (PyInt 0) && negb (isinstance_int exponent)) eqn:Hguard;
    [apply Hraises; by intros (? & _)|].
  destruct (py_pow base exponent) as [r'|e] eqn:Hpow; cbn;
    [|destruct e; apply Hraises; by intros (_ & ? & _)].
  destruct (to_float r') as [f|e] eqn:Hf; cbn.
  - destruct (Float64.is_nan f) eqn:Hnan; cbn;
      [apply Hraises; intros (_ & ? & f' & ? & ? & _); simplify_eq; congruence|].
    destruct (Float64.is_inf f) eqn:Hinf; cbn;
      [apply Hraises; intros (_ & ? & f' & ? & _ & ?); simplify_eq; congruence|].
    split.
    + intros [= <-]. eauto 10.
    + by intros (_ & [= <-] & _).
  - destruct e; apply Hraises; intros (_ & ? & f' & ? & _); simplify_eq; congruence.
Qed.

(** C4, as the code has it.  [divide] raises [ZeroDivisionError] exactly
    when the divisor equals zero, [square_root] raises [ValueError] exactly
    when the radicand is below zero.  [power] returns exactly when it is
    not so that the base is below zero and the exponent is not an [int],
    [base ** exponent] returns, and what it returns is a finite number; it
    raises [ValueError] for a base below zero with an exponent that is not
    an [int], when [**] raises [OverflowError], and when the result is NaN
    or infinite.  [add], [subtract] and [multiply] check nothing: on floats
    they return the IEEE-754 result whatever it is, and the only error they
    raise is that of converting an int too large for a double; past their
    guards, [divide] and [square_root] return the IEEE-754 result too. *)
Theorem validation_of_operations (a b : Number) (self : Calculator.t) :
  ((∃ msg, fst (Calculator.divide a b self) = Raises (ZeroDivisionError msg))
   ↔ py_eq b (PyInt 0) = true)
  ∧ ((∃ msg, fst (Calculator.square_root a self) = Raises (ValueError msg))
     ↔ py_lt a (PyInt 0) = true)
  ∧ (∀ r, fst (Calculator.power a b self) = Returns r
          ↔ py_lt a (PyInt 0) && negb (isinstance_int b) = false
            ∧ py_pow a b = Returns r
            ∧ ∃ f, to_float r = Returns f
                   ∧ Float64.is_nan f = false ∧ Float64.is_inf f = false)
  ∧ (py_lt a (PyInt 0) = true → isinstance_int b = false →
     fst (Calculator.power a b self)
     = Raises (ValueError "Cannot raise negative number to non-integer power"))
  ∧ (py_lt a (PyInt 0) && negb (isinstance_int b) = false →
     (∃ msg, py_pow a b = Raises (OverflowError msg)) →
     fst (Calculator.power a b self)
     = Raises (ValueError "Operation resulted in overflow"))
  ∧ (py_lt a (PyInt 0) && negb (isinstance_int b) = false →
     ∀ f, py_pow a b = Returns (PyFloat f) →
          Float64.is_nan f || Float64.is_inf f = true →
          fst (Calculator.power a b self)
          = Raises (ValueError "Operation resulted in invalid number"))
  ∧ (∀ x y,
       fst (Calculator.add (PyFloat x) (PyFloat y) self)
       = Returns (PyFloat (Float64.add x y))
       ∧ fst (Calculator.subtract (PyFloat x) (PyFloat y) self)
         = Returns (PyFloat (Float64.sub x y))
       ∧ fst (Calculator.multiply (PyFloat x) (PyFloat y) self)
         = Returns (PyFloat (Float64.mul x y)))
  ∧ (∀ e, fst (Calculator.add a b self) = Raises e
          ∨ fst (Calculator.subtract a b self) = Raises e
          ∨ fst (Calculator.multiply a b self) = Raises e →
          e = OverflowError "int too large to convert to float")
  ∧ (∀ x y, Float64.is_zero y = false →
       fst (Calculator.divide (PyFloat x) (PyFloat y) self)
       = Returns (PyFloat (Float64.div x y)))
  ∧ (∀ x, py_lt (PyFloat x) (PyInt 0) = false →
       fst (Calculator.square_root (PyFloat x) self)
       = Returns (PyFloat (Float64.sqrt x))).
Proof.
  split; [|split; [|split; [|split; [|split; [|split; [|split; [|split; [|split]]]]]]]].
  - unfold Calculator.divide. run.
    destruct (py_eq b (PyInt 0)) eqn:Hguard; [cbn; split; [done|by eexists]|].
    split; [|done]. intros [msg Hraise]. exfalso.
    apply (py_truediv_past_guard a b msg Hguard).
    by destruct (py_truediv a b).
  - unfold Calculator.square_root. run.
    destruct (py_lt a (PyInt 0)) eqn:Hguard; [cbn; split; [done|by eexists]|].
    split; [|done]. intros [msg Hraise]. exfalso.
    apply (math_sqrt_past_guard a msg Hguard).
    by destruct (math_sqrt a).
  - intros r. apply power_returns.
  - intros Hneg Hint. unfold Calculator.power, except_OverflowError.
    by rewrite Hneg, Hint.
  - intros Hguard [msg Hpow]. unfold Calculator.power, except_OverflowError. run.
    by rewrite Hguard, Hpow.
  - intros Hguard f Hpow Hbad.
    unfold Calculator.power, except_OverflowError, math_isnan, math_isinf. run.
    rewrite Hguard, Hpow. cbn.
    destruct (Float64.is_nan f); [done|]. cbn in *. by rewrite Hbad.
  - done.
  - unfold Calculator.add, Calculator.subtract, Calculator.multiply,
      py_add, py_sub, py_mul. run.
    intros e [Hraise|[Hraise|Hraise]]; destruct a, b; try done;
      match type of Hraise with
      | context [float_binop ?op ?x ?y] =>
          pose proof (float_binop_raises op x y) as Hop;
          destruct (float_binop op x y); [done|]
      end; injection Hraise as <-; by apply Hop.
  - intros x y Hy. unfold Calculator.divide.
    rewrite py_eq_zero_float, Hy.
    unfold py_truediv, eval, mbind, method_bind, outcome_bind, to_float.
    by rewrite Hy.
  - intros x Hx. unfold Calculator.square_root. rewrite Hx.
    rewrite py_lt_zero_float in Hx.
    unfold math_sqrt, eval, mbind, method_bind, outcome_bind, to_float.
    by destruct x as [|[]| |[]].
Qed.

End Validation.

Lemma validation_of_operations_witness :
  (∃ msg, fst (Calculator.divide (PyInt 10) (PyInt 0) Calculator.init)
          = Raises (ZeroDivisionError msg))
  ∧ (∃ msg, fst (Calculator.square_root (PyInt (-16)) Calculator.init)
            = Raises (ValueError msg))
  ∧ fst (@Calculator.power pow_out_of_range (PyInt 2) (PyInt 8) Calculator.init)
    = Returns (PyInt 256)
  ∧ fst (@Calculator.power pow_out_of_range (PyInt (-2)) half Calculator.init)
    = Raises (ValueError "Cannot raise negative number to non-integer power")
  ∧ fst (@Calculator.power pow_out_of_range (PyInt (10 ^ 400)) (PyInt (-1))
           Calculator.init)
    = Raises (ValueError "Operation resulted in overflow")
  ∧ fst (Calculator.divide one two Calculator.init) = Returns half.
Proof.
  split; [|split; [|split; [|split; [|split]]]].
  - apply (@validation_of_operations pow_out_of_range (PyInt 10) (PyInt 0)
             Calculator.init). reflexivity.
  - apply (@validation_of_operations pow_out_of_range (PyInt (-16)) (PyInt 0)
             Calculator.init). reflexivity.
  - apply (@validation_of_operations pow_out_of_range (PyInt 2) (PyInt 8)
             Calculator.init).
    split; [reflexivity|]. split; [reflexivity|].
    exists (S754_finite false 4503599627370496 (-44)). by vm_compute.
  - apply (@validation_of_operations pow_out_of_range (PyInt (-2)) half
             Calculator.init); reflexivity.
  - destruct (@validation_of_operations pow_out_of_range (PyInt (10 ^ 400))
                (PyInt (-1)) Calculator.init)
      as (_ & _ & _ & _ & Hoverflow & _).
    apply Hoverflow; [by vm_compute|].
    exists "int too large to convert to float". by vm_compute.
  - destruct (@validation_of_operations pow_out_of_range one two Calculator.init)
      as (_ & _ & _ & _ & _ & _ & _ & _ & Hdiv & _).
    apply (Hdiv (S754_finite false 4503599627370496 (-52))
             (S754_finite false 4503599627370496 (-51))). reflexivity.
Defined.

(** C4 as stated fails: [add] and [multiply] return an infinity, [add]
    returns a NaN, and [divide] and [square_root] raise on an int that is
    too large although the divisor is not zero and the radicand is not
    negative. *)
Lemma results_are_not_validated :
  fst (Calculator.add large large Calculator.init) = Returns plus_infinity
  ∧ fst (Calculator.multiply large large Calculator.init) = Returns plus_infinity
  ∧ fst (Calculator.add plus_infinity minus_infinity Calculator.init) = Returns nan
  ∧ py_eq (PyInt 1) (PyInt 0) = false
  ∧ fst (Calculator.divide (PyInt (10 ^ 400)) (PyInt 1) Calculator.init)
    = Raises (OverflowError "integer division result too large for a float")
  ∧ py_lt (PyInt (10 ^ 400)) (PyInt 0) = false
  ∧ fst (Calculator.square_root (PyInt (10 ^ 400)) Calculator.init)
    = Raises (OverflowError "int too large to convert to float").
Proof.
  split; [by vm_compute|]. split; [by vm_compute|]. split; [by vm_compute|].
  split; [by vm_compute|]. split; [by vm_compute|]. split; by vm_compute.
Qed.

(** * Further properties *)

(** ** The evaluator *)




Section EvaluatorMore.
Context `{FloatPow}.





End EvaluatorMore.




(** ** The log *)






(** ** Statistics, once more *)













(** ** The facade and its log *)

Section FacadeMore.
Context `{FloatPow}.




End FacadeMore.


Section FacadeRuns.
Context `{FloatPow}.




End FacadeRuns.



(** ** The files *)













(** ** The facade and the files *)









